(** * r.trench: trapezoid trench along a path, level discretisation and
      minimum-envelope sweep

    A shallow embedding of [main] of [r.trench.py] and the properties of its
    level grid, level assignment, envelope sweep and reporting.

    Modelling conventions.
    - Python floats are modelled by exact rationals ([Q]); [int] by [Z].  The
      model therefore covers finite values computed without rounding error:
      the overflow of a float to [inf] or [nan], on which [int(round(x))]
      raises, is outside it.
    - [round] is the Python 2 builtin (the script is a GRASS 7 / Python 2
      module): ties go away from zero.
    - Exceptions are values of [Py.exn]; a computation that can raise returns
      a [Py.result].  [main] threads a [world] (the GRASS session: command
      trace, raster MASK, level files, raster maps) and keeps the world
      reached when an exception escapes.
    - GRASS modules are collaborators.  A [site] gives what they answer: the
      cells of the computational region, the DTM as a partial grid on them,
      and the rasterised vector buffers.  [r.mapcalc] and [r.univar] follow
      their documented cell-wise semantics, reading their inputs through the
      raster MASK.  A module fails ([CalledModuleError]) only when a map or
      file it reads does not exist; a module failing for another reason is
      outside the model.
    - Raster names are an inductive type: the session is assumed to hold, at
      the start, the user's DTM and nothing else, under a name different
      from every name the script writes or removes ([source], [temp],
      [dtm_<basename>], [diff_<basename>], [l_*<basename>*]).
    - The profile CSV and the shell housekeeping ([rm]) are not modelled. *)

From Stdlib Require Import ZArith QArith Qround Qminmax Lqa Lia List String Sorted.
From stdpp Require Import base option list gmap.

Local Open Scope Z_scope.
Local Open Scope Q_scope.

(** ** Python fragments *)

Module Py.

Inductive exn : Set :=
| ZeroDivisionError
| IndexError
| KeyError
| ValueError
| CalledModuleError.

Inductive result (A : Type) : Type :=
| Ok (a : A)
| Raise (e : exn).
Arguments Ok {A} a.
Arguments Raise {A} e.

Definition rbind {A B} (m : result A) (f : A -> result B) : result B :=
  match m with
  | Ok a => f a
  | Raise e => Raise e
  end.

(** [int(round(x))] of Python 2 on a finite value: nearest integer, halves
    away from zero. *)
Definition round (x : Q) : Z :=
  if Qle_bool 0 x then Qfloor (x + (1 # 2)) else Qceiling (x - (1 # 2)).

(** [x / y] on floats. *)
Definition div (x y : Q) : result Q :=
  if Qeq_bool y 0 then Raise ZeroDivisionError else Ok (x / y).

(** [l[i]] on a list, negative indices counting from the end. *)
Definition index {A} (l : list A) (i : Z) : result A :=
  let n := Z.of_nat (List.length l) in
  let j := if (i <? 0)%Z then (i + n)%Z else i in
  if (j <? 0)%Z then Raise IndexError
  else match l !! Z.to_nat j with
       | Some a => Ok a
       | None => Raise IndexError
       end.

(** [d[k]] on a dict. *)
Definition getitem {V} (d : gmap Z V) (k : Z) : result V :=
  match d !! k with
  | Some v => Ok v
  | None => Raise KeyError
  end.

(** [range(a, b)]. *)
Definition range (a b : Z) : list Z := seqZ a (b - a).

End Py.

Export Py(exn(..), result(..)).

#[export] Instance result_ret : MRet result := fun _ a => Ok a.
#[export] Instance result_bind : MBind result := fun _ _ f m => Py.rbind m f.

(** ** Data of the run *)

(** [options]: the parsed command line.  [None] is the empty string. *)
Record options : Type := {
  hres : option Q;
  vres : option Q;
  pointdist : option Q;
  endheight : option Q;
  depth : option Q;
  startheight : option Q;
  limitrunlayers : option Z;
  bottomwidth : option Q;
  maxwidth : option Q;
  sideratio : option Q;
  dtmres : option Q
}.

Definition ensureopt {A} (answer : option A) (value : A) : A :=
  match answer with
  | None => value
  | Some v => v
  end.

(** One line of the [v.out.ascii] point file, split at [|]: fields 0, 1, 2
    and 4. *)
Record sample : Type := {
  sx : Q;
  sy : Q;
  scat : Z;
  along : Q
}.

(** One row of [db[n]]: [[aLine[0], aLine[1], aLine[2], width]]. *)
Record entry : Type := {
  ex : Q;
  ey : Q;
  ecat : Z;
  width : Q
}.

Definition row (aLine : sample) (w : Q) : entry :=
  {| ex := sx aLine; ey := sy aLine; ecat := scat aLine; width := w |}.

(** Messages of [grass.verbose] and [grass.message], one constructor per
    call site. *)
Inductive msg : Type :=
| PathLength (length : Q)
| Profile
| MaximumHeight (maxH : Q)
| NumberOfLevels (vLevels : Z)
| StartHeight (h : Q)
| EndHeight (h : Q)
| SlopeRatio (quo : Q)
| Applying (n : Z)
| CalculatingVolume
| ReportPath
| ReportM3 (m3 : Q)
| ReportTons (mt : Q)
| ReportKt (kt : Q)
| ReportLiebherr (trips : Q)
| ReportVisonta (years : Q).

(** The fixed text each message starts with. *)
Definition label (m : msg) : string :=
  match m with
  | PathLength _ => "Path length: "
  | Profile => "Profile: "
  | MaximumHeight _ => "Maximum height: "
  | NumberOfLevels _ => "Number of levels: "
  | StartHeight _ => "Start height: "
  | EndHeight _ => "End height: "
  | SlopeRatio _ => "Slope ratio (in meters / meter): "
  | Applying _ => "Applying: "
  | CalculatingVolume => "Calculating volume difference"
  | ReportPath => "Path: "
  | ReportM3 _ => "M3: "
  | ReportTons _ => "Limestone tons: "
  | ReportKt _ => "Kt limestone: "
  | ReportLiebherr _ => "Liebherr T 282B: "
  | ReportVisonta _ => "Visonta year "
  end.

Inductive event : Type :=
| Grass (module : string)
| Say (m : msg).

(** Raster maps the script reads or writes. *)
Inductive rname : Set :=
| Basedtm
| Maxbuf
| BufDiss (n : Z)
| Source
| Temp
| Dtm
| Diff.

#[export] Instance rname_eq_dec : EqDecision rname.
Proof. solve_decision. Defined.

(** Scratch maps matched by the pattern [l_*<basename>*]. *)
Definition is_scratch (r : rname) : bool :=
  match r with
  | Maxbuf | BufDiss _ => true
  | _ => false
  end.

(** ** The GRASS session *)

(** What the collaborators answer on one location. *)
Record site (Cell : Type) : Type := {
  (** cells of the working region [l_work_<basename>.region] *)
  region : list Cell;
  (** the DTM as read in the working region *)
  terrain : Cell -> option Q;
  (** [v.buffer type=line distance=d] of the path, as a set of cells *)
  line_buffer : Q -> Cell -> bool;
  (** [v.in.ascii | v.buffer column=width | v.to.rast type=area] of one level
      file: the cells covered, given the raster MASK in force *)
  points_buffer : option (Cell -> bool) -> list entry -> Cell -> bool
}.
Arguments region {Cell} _.
Arguments terrain {Cell} _ _.
Arguments line_buffer {Cell} _ _ _.
Arguments points_buffer {Cell} _ _ _ _.

Definition grid (Cell : Type) : Type := Cell -> option Q.

Record world (Cell : Type) : Type := {
  trace : list event;
  mask : option (Cell -> bool);
  pascii : gmap Z (list entry);
  rast : rname -> option (grid Cell)
}.
Arguments trace {Cell} _.
Arguments mask {Cell} _.
Arguments pascii {Cell} _.
Arguments rast {Cell} _ _.

Section Trench.

Context {Cell : Type}.
Variable here : site Cell.

Definition world0 : world Cell :=
  {| trace := [];
     mask := None;
     pascii := ∅;
     rast := fun r => match r with Basedtm => Some (terrain here) | _ => None end |}.

Definition log (e : event) (w : world Cell) : world Cell :=
  {| trace := trace w ++ [e]; mask := mask w; pascii := pascii w;
     rast := rast w |}.

Definition set_mask (m : option (Cell -> bool)) (w : world Cell) : world Cell :=
  {| trace := trace w; mask := m; pascii := pascii w; rast := rast w |}.

Definition set_pascii (f : gmap Z (list entry)) (w : world Cell) : world Cell :=
  {| trace := trace w; mask := mask w; pascii := f; rast := rast w |}.

Definition set_rast (r : rname) (g : option (grid Cell)) (w : world Cell)
  : world Cell :=
  {| trace := trace w; mask := mask w; pascii := pascii w;
     rast := fun r' => if decide (r' = r) then g else rast w r' |}.

(** A raster cell as a module reads it: null outside the MASK. *)
Definition read (m : option (Cell -> bool)) (g : grid Cell) : grid Cell :=
  fun c =>
    match m with
    | Some inside => if inside c then g c else None
    | None => g c
    end.

Definition M (A : Type) : Type := world Cell -> result A * world Cell.

#[export] Instance M_ret : MRet M := fun _ a w => (Ok a, w).
#[export] Instance M_bind : MBind M := fun _ _ f m w =>
  match m w with
  | (Ok a, w') => f a w'
  | (Raise e, w') => (Raise e, w')
  end.

Definition lift {A} (r : result A) : M A := fun w => (r, w).

Fixpoint for_ {X} (l : list X) (body : X -> M unit) : M unit :=
  match l with
  | [] => mret tt
  | x :: l' => body x;; for_ l' body
  end.

(** [grass.run_command] of a module whose effect on the maps and files is
    not modelled: it is logged and succeeds. *)
Definition grass (module : string) : M unit :=
  fun w => (Ok tt, log (Grass module) w).

Definition verbose (m : msg) : M unit := fun w => (Ok tt, log (Say m) w).
Definition message (m : msg) : M unit := fun w => (Ok tt, log (Say m) w).

(** [v.buffer input=linevector type=line distance=d]. *)
Definition v_buffer_line (d : Q) : M (Cell -> bool) :=
  grass "v.buffer";; mret (line_buffer here d).

(** [r.mask vector=v] and [r.mask -r]. *)
Definition r_mask (v : Cell -> bool) : M unit :=
  fun w => (Ok tt, set_mask (Some v) (log (Grass "r.mask") w)).
Definition r_mask_r : M unit :=
  fun w => (Ok tt, set_mask None (log (Grass "r.mask") w)).

(** *** r.mapcalc *)

Inductive mexpr : Set :=
| Map (r : rname)
| IsNull (e : mexpr)
| If (c a b : mexpr)
| Lt (a b : mexpr)
| Minus (a b : mexpr).

Fixpoint maps (e : mexpr) : list rname :=
  match e with
  | Map r => [r]
  | IsNull e => maps e
  | If c a b => maps c ++ maps a ++ maps b
  | Lt a b | Minus a b => maps a ++ maps b
  end.

(** Value of an expression in one cell; [None] is null. *)
Fixpoint eval (env : rname -> option Q) (e : mexpr) : option Q :=
  match e with
  | Map r => env r
  | IsNull e => Some (match eval env e with None => 1 | Some _ => 0 end)
  | If c a b =>
      match eval env c with
      | None => None
      | Some x => if Qeq_bool x 0 then eval env b else eval env a
      end
  | Lt a b =>
      match eval env a, eval env b with
      | Some x, Some y => Some (if Qle_bool y x then 0 else 1)
      | _, _ => None
      end
  | Minus a b =>
      match eval env a, eval env b with
      | Some x, Some y => Some (x - y)
      | _, _ => None
      end
  end.

Definition cell_env (w : world Cell) (c : Cell) : rname -> option Q :=
  fun r =>
    match rast w r with
    | Some g => read (mask w) g c
    | None => None
    end.

Definition exists_map (w : world Cell) (r : rname) : bool :=
  match rast w r with Some _ => true | None => false end.

(** [r.mapcalc expression='out = e']. *)
Definition r_mapcalc (out : rname) (e : mexpr) : M unit :=
  fun w =>
    let w' := log (Grass "r.mapcalc") w in
    if forallb (exists_map w) (maps e)
    then (Ok tt, set_rast out (Some (fun c => eval (cell_env w c) e)) w')
    else (Raise CalledModuleError, w').

(** [r.univar map=r]: the non-null cell values of the region. *)
Definition r_univar (r : rname) : M (list Q) :=
  fun w =>
    let w' := log (Grass "r.univar") w in
    match rast w r with
    | Some g => (Ok (omap (read (mask w) g) (region here)), w')
    | None => (Raise CalledModuleError, w')
    end.

(** [float(kv['maximum'])]; without a valid cell there is no usable value. *)
Definition maximum (vs : list Q) : result Q :=
  match vs with
  | [] => Raise ValueError
  | v :: vs' => Ok (fold_left Qmax vs' v)
  end.

(** [float(kv['sum'])]. *)
Definition total (vs : list Q) : Q := fold_left Qplus vs 0.

(** [v.in.ascii input=<level file n>]. *)
Definition v_in_ascii (n : Z) : M (list entry) :=
  fun w =>
    let w' := log (Grass "v.in.ascii") w in
    match pascii w !! n with
    | Some es => (Ok es, w')
    | None => (Raise CalledModuleError, w')
    end.

(** The level map [v.to.rast use=attr] writes: [level] on the buffered area of
    the rows [es], null elsewhere. *)
Definition stamp (m : option (Cell -> bool)) (es : list entry) (level : Z)
  : grid Cell :=
  fun c => if points_buffer here m es c then Some (inject_Z level) else None.

(** [v.to.rast] of the buffered rows of one level. *)
Definition v_to_rast (es : list entry) (level : Z) (out : rname) : M unit :=
  fun w =>
    (Ok tt, set_rast out (Some (stamp (mask w) es level))
              (log (Grass "v.to.rast") w)).

(** [g.rename raster=a,b] with overwrite. *)
Definition g_rename (a b : rname) : M unit :=
  fun w =>
    let w' := log (Grass "g.rename") w in
    match rast w a with
    | Some g => (Ok tt, set_rast b (Some g) (set_rast a None w'))
    | None => (Raise CalledModuleError, w')
    end.

(** [g.remove -f type=all pattern=l_*<basename>*]. *)
Definition g_remove : M unit :=
  fun w =>
    (Ok tt,
     {| trace := trace w ++ [Grass "g.remove"]; mask := mask w;
        pascii := pascii w;
        rast := fun r => if is_scratch r then None else rast w r |}).

(** Writing the level files: one file per key of [db]. *)
Definition write_pascii (db : gmap Z (list entry)) : M unit :=
  fun w => (Ok tt, set_pascii db w).

(** ** The script *)

Fixpoint rfold {X S} (body : S -> X -> result S) (s : S) (l : list X)
  : result S :=
  match l with
  | [] => Ok s
  | x :: l' => s' ← body s x; rfold body s' l'
  end.

(** [db[k].append(e)]. *)
Definition append (db : gmap Z (list entry)) (k : Z) (e : entry)
  : result (gmap Z (list entry)) :=
  l ← Py.getitem db k; mret (<[k := l ++ [e]]> db).

Section Levels.

Variables vRes endHeight startHeight chWidth chMaxWidth sideRatio : Q.
Variable vLevels : Z.

(** Line 302: the elevation attached to level [n]. *)
Definition elevation (n : Z) : Z :=
  Py.round (inject_Z (n - 1) * vRes + endHeight).

(** Lines 294-303: [hSeries] and the empty [db]. *)
Definition level_table : list Z * gmap Z (list entry) :=
  foldl (fun '(hSeries, db) n => (hSeries ++ [elevation n], <[n := []]> db))
        ([], ∅) (Py.range 1 vLevels).

(** Lines 313-314: the level of a station. *)
Definition own_level (quo : Q) (aLine : sample) : result Z :=
  let tmp := quo * along aLine + startHeight in
  x ← Py.div (tmp - endHeight) vRes;
  mret (Py.round (x + 1)).

(** Line 319. *)
Definition buffer_width (level levelUp : Z) : Q :=
  chWidth / 2 + inject_Z (levelUp - level) * vRes * sideRatio.

(** Lines 318-321: one level above the station's own. *)
Definition level_up (aLine : sample) (level : Z)
    (db : gmap Z (list entry)) (levelUp : Z)
  : result (gmap Z (list entry)) :=
  let bufferWidth := buffer_width level levelUp in
  if Qle_bool bufferWidth (chMaxWidth / 2)
  then append db levelUp (row aLine bufferWidth)
  else Ok db.

(** Lines 313-321: the body of the loop over the stations. *)
Definition station (hSeries : list Z) (quo : Q)
    (db : gmap Z (list entry)) (aLine : sample)
  : result (gmap Z (list entry)) :=
  level ← own_level quo aLine;
  layer ← Py.index hSeries (level - 1);
  db ← append db level (row aLine (chWidth / 2));
  rfold (level_up aLine level) db (Py.range (level + 1) vLevels).

(** The rows a station of level [level] adds to level [n]. *)
Definition rows_at (aLine : sample) (level n : Z) : list entry :=
  if decide (n = level) then [row aLine (chWidth / 2)]
  else if bool_decide (level < n < vLevels)%Z
          && Qle_bool (buffer_width level n) (chMaxWidth / 2)
       then [row aLine (buffer_width level n)]
       else [].

Definition station_rows (quo : Q) (aLine : sample) (n : Z) : list entry :=
  match own_level quo aLine with
  | Ok level => rows_at aLine level n
  | Raise _ => []
  end.

End Levels.

(** The [r.mapcalc] expression of line 359 for the level map [f]. *)
Definition envelope (f : rname) : mexpr :=
  If (IsNull (Map f)) (Map Source)
     (If (Lt (Map f) (Map Source)) (Map f) (Map Source)).

(** Lines 340-346: rasterising level [n]. *)
Definition rasterize (hSeries : list Z) (db : gmap Z (list entry)) (n : Z)
  : M unit :=
  l ← lift (Py.getitem db n);
  if (0 <? Z.of_nat (List.length l))%Z then
    es ← v_in_ascii n;
    grass "v.buffer";;
    grass "v.db.addcolumn";;
    level ← lift (Py.index hSeries (n - 1));
    grass "v.db.update";;
    v_to_rast es level (BufDiss n)
  else mret tt.

(** Lines 356-360: merging level [n] into [source]. *)
Definition apply_level (db : gmap Z (list entry)) (n : Z) : M unit :=
  l ← lift (Py.getitem db n);
  if (0 <? Z.of_nat (List.length l))%Z then
    verbose (Applying n);;
    r_mapcalc Temp (envelope (BufDiss n));;
    g_rename Temp Source
  else mret tt.

Definition main (opts : options) (lines : list sample) : M Z :=
  let hRes := ensureopt (hres opts) 10 in
  let vRes := ensureopt (vres opts) 1 in
  let pointDist := ensureopt (pointdist opts) 20 in
  let endHeight := ensureopt (endheight opts) 100 in
  let depth := ensureopt (depth opts) 5 in
  let startHeight := ensureopt (startheight opts) 1000 in
  let limitRunLayers := ensureopt (limitrunlayers opts) 2000%Z in
  let chWidth := ensureopt (bottomwidth opts) 100 in
  let chMaxWidth := ensureopt (maxwidth opts) 300 in
  (* forced calculation *)
  sideRatio ← lift (x ← Py.div (chMaxWidth - chWidth) 2; Py.div x depth);
  let reliefRes := ensureopt (dtmres opts) 10 in
  grass "g.region";;
  grass "g.region";;
  grass "g.region";;
  grass "v.to.points";;
  grass "v.out.ascii";;
  last ← lift (Py.index lines (-1));
  let length := along last in
  verbose (PathLength length);;
  verbose Profile;;
  maxbuf ← v_buffer_line (chMaxWidth / 2);
  r_mask maxbuf;;
  r_mapcalc Maxbuf (Map Basedtm);;
  kv ← r_univar Maxbuf;
  maxH ← lift (maximum kv);
  let maxH := maxH + vRes in
  verbose (MaximumHeight maxH);;
  r_mask_r;;
  x ← lift (Py.div (maxH - endHeight) vRes);
  let vLevels := (Py.round x + 2)%Z in
  verbose (NumberOfLevels vLevels);;
  let '(hSeries, db) := level_table vRes endHeight vLevels in
  quo ← lift (Py.div (endHeight - startHeight) length);
  verbose (StartHeight startHeight);;
  verbose (EndHeight endHeight);;
  verbose (SlopeRatio quo);;
  db ← lift (rfold (station vRes endHeight startHeight chWidth chMaxWidth
                      sideRatio vLevels hSeries quo) db lines);
  write_pascii db;;
  grass "g.region";;
  grass "g.region";;
  (* creating buffer for raster masking *)
  buf200 ← v_buffer_line 200;
  r_mask buf200;;
  for_ (Py.range 1 (Z.min vLevels limitRunLayers)) (rasterize hSeries db);;
  (* CALCULATING FINAL RESULT *)
  r_mask_r;;
  grass "g.region";;
  grass "g.region";;
  r_mapcalc Source (Map Basedtm);;
  for_ (Py.range 1 (Z.min vLevels limitRunLayers)) (apply_level db);;
  r_mapcalc Dtm (If (IsNull (Map Source)) (Map Basedtm) (Map Source));;
  grass "r.colors";;
  grass "g.region";;
  grass "r.relief";;
  verbose CalculatingVolume;;
  grass "g.region";;
  grass "g.region";;
  r_mask buf200;;
  r_mapcalc Diff (Minus (Map Basedtm) (Map Dtm));;
  kv ← r_univar Diff;
  let sum := total kv in
  r_mask_r;;
  (* WRITE LOG FILE *)
  grass "g.region";;
  (* kv['nsres'], kv['ewres']: the region resolution, set to hRes above *)
  let xres := hRes in
  let yres := hRes in
  let m3 := xres * yres * sum in
  let mt := m3 * (27 # 10) * 1000 in
  let liebherr := mt / 350 in
  let visontaev := mt / 1000 / 4200 in
  message ReportPath;;
  message (ReportM3 m3);;
  message (ReportTons mt);;
  message (ReportKt (mt / 1000));;
  message (ReportLiebherr liebherr);;
  message (ReportVisonta visontaev);;
  g_remove;;
  mret 0%Z.

(** A run of the script in a fresh session. *)
Definition run (opts : options) (lines : list sample)
  : result Z * world Cell :=
  main opts lines world0.

End Trench.

(** ** Notions used in the statements *)

(** The messages of a trace, in order. *)
Definition says (t : list event) : list msg :=
  omap (fun e => match e with Say m => Some m | Grass _ => None end) t.

(** What line 359 leaves in a cell of [source] whose level map holds [f]. *)
Definition lower (f s : option Q) : option Q :=
  match f with
  | None => s
  | Some x =>
      match s with
      | None => None
      | Some y => Some (if Qle_bool y x then y else x)
      end
  end.

(** [db[n]], and the test [len(db[n]) > 0]. *)
Definition rows (db : gmap Z (list entry)) (n : Z) : list entry :=
  default [] (db !! n).

Definition has_rows (db : gmap Z (list entry)) (n : Z) : bool :=
  match db !! n with
  | Some (_ :: _) => true
  | _ => false
  end.

(** The levels the two loops over [range(1, min(vLevels, limitRunLayers))]
    process. *)
Definition applied (db : gmap Z (list entry)) (vLevels limitRunLayers : Z)
  : list Z :=
  List.filter (has_rows db) (Py.range 1 (Z.min vLevels limitRunLayers)).

(** The cells the level map of level [n] covers. *)
Definition footprint {Cell} (here : site Cell) (db : gmap Z (list entry))
    (n : Z) (c : Cell) : bool :=
  points_buffer here (Some (line_buffer here 200)) (rows db n) c.

(** The lowest of the given levels whose level map covers the cell. *)
Definition lowest_cover {Cell} (here : site Cell) (db : gmap Z (list entry))
    (levels : list Z) (c : Cell) : option Z :=
  List.find (fun n => footprint here db n c) levels.

(** The level map of level [n], as rasterised under the 200 buffer MASK. *)
Definition level_map {Cell} (here : site Cell) (vRes endHeight : Q)
    (db : gmap Z (list entry)) (n : Z) : grid Cell :=
  stamp here (Some (line_buffer here 200)) (rows db n)
    (elevation vRes endHeight n).

(** [source] in one cell after merging the given levels in order. *)
Definition sweep {Cell} (here : site Cell) (vRes endHeight : Q)
    (db : gmap Z (list entry)) (levels : list Z) (c : Cell) : option Q :=
  foldl (fun s n => lower (level_map here vRes endHeight db n c) s)
        (terrain here c) levels.

(** The cell of [dtm_<basename>] (line 361) over a given [source] cell. *)
Definition fill {Cell} (here : site Cell) (source : option Q) (c : Cell)
  : option Q :=
  match source with
  | None => terrain here c
  | Some v => Some v
  end.

(** The cell of [diff_<basename>] (lines 371-372) over a given result cell. *)
Definition difference {Cell} (here : site Cell) (es : option Q) (c : Cell)
  : option Q :=
  if line_buffer here 200 c
  then match terrain here c, es with
       | Some t, Some e => Some (t - e)
       | _, _ => None
       end
  else None.

(** The six report lines (lines 389-402) for a cell size and a sum. *)
Definition report (hRes sum : Q) : list msg :=
  let m3 := hRes * hRes * sum in
  let mt := m3 * (27 # 10) * 1000 in
  [ReportPath; ReportM3 m3; ReportTons mt; ReportKt (mt / 1000);
   ReportLiebherr (mt / 350); ReportVisonta (mt / 1000 / 4200)].

(** The value of a raster map of the session in one cell. *)
Definition cell_value {Cell} (w : world Cell) (r : rname) (c : Cell)
  : option Q :=
  match rast w r with
  | Some g => g c
  | None => None
  end.

(** The levels a run reports as applied. *)
Definition applying (says : list msg) : list Z :=
  omap (fun m => match m with Applying n => Some n | _ => None end) says.

(** The same command line with another [sideratio] answer. *)
Definition with_sideratio (v : option Q) (opts : options) : options :=
  {| hres := hres opts; vres := vres opts; pointdist := pointdist opts;
     endheight := endheight opts; depth := depth opts;
     startheight := startheight opts; limitrunlayers := limitrunlayers opts;
     bottomwidth := bottomwidth opts; maxwidth := maxwidth opts;
     sideratio := v; dtmres := dtmres opts |}.

(** The level of a station as the specification words it: the rounded
    quotient plus one, clamped into [1 .. vLevels-1]. *)
Definition clamp (x lo hi : Z) : Z := Z.max lo (Z.min x hi).

Definition spec_own_level (vRes endHeight ds : Q) (vLevels : Z) : Z :=
  clamp (Py.round ((ds - endHeight) / vRes) + 1) 1 (vLevels - 1).

(** The computations of [main] that can raise, in the order of the script and
    without the session: the side ratio (line 227), the path length (line
    262), the corridor maximum (line 285), the number of levels (line 291),
    the slope (line 305) and the loop over the stations (lines 312-321). *)
Definition outcome {Cell} (here : site Cell) (opts : options)
    (lines : list sample) : result Z :=
  let vRes := ensureopt (vres opts) 1 in
  let endHeight := ensureopt (endheight opts) 100 in
  let depth := ensureopt (depth opts) 5 in
  let startHeight := ensureopt (startheight opts) 1000 in
  let chWidth := ensureopt (bottomwidth opts) 100 in
  let chMaxWidth := ensureopt (maxwidth opts) 300 in
  sideRatio ← (x ← Py.div (chMaxWidth - chWidth) 2; Py.div x depth);
  last ← Py.index lines (-1);
  maxH ← maximum (omap (read (Some (line_buffer here (chMaxWidth / 2)))
                          (terrain here)) (region here));
  x ← Py.div (maxH + vRes - endHeight) vRes;
  let vLevels := (Py.round x + 2)%Z in
  quo ← Py.div (endHeight - startHeight) (along last);
  db ← rfold (station vRes endHeight startHeight chWidth chMaxWidth sideRatio
                vLevels (fst (level_table vRes endHeight vLevels)) quo)
             (snd (level_table vRes endHeight vLevels)) lines;
  mret 0%Z.

(** ** A straight path on a square grid

    A concrete location for examples: cells are the integer points of the
    plane, the path is the segment from [(0, 0)] to [(len, 0)], buffers are
    Euclidean, and the rasteriser of the level files leaves the cells outside
    the MASK null ([disks]) or ignores the MASK ([open_disks]). *)

Module Transect.

Definition Cell : Type := (Z * Z)%type.

Definition sq (x : Q) : Q := x * x.

(** Within distance [d] of the segment. *)
Definition near_path (len d : Q) (c : Cell) : bool :=
  let x := inject_Z (fst c) in
  let px := Qmax 0 (Qmin x len) in
  Qle_bool 0 d && Qle_bool (sq (x - px) + sq (inject_Z (snd c))) (sq d).

(** Within the disk of radius [width e] around the row [e]. *)
Definition in_disk (e : entry) (c : Cell) : bool :=
  Qle_bool 0 (width e)
  && Qle_bool (sq (inject_Z (fst c) - ex e) + sq (inject_Z (snd c) - ey e))
              (sq (width e)).

Definition disks (m : option (Cell -> bool)) (es : list entry) (c : Cell)
  : bool :=
  existsb (fun e => in_disk e c) es
  && match m with Some inside => inside c | None => true end.

Definition place (cells : list Cell) (dtm : Cell -> option Q) (len : Q)
  : site Cell :=
  {| region := cells; terrain := dtm; line_buffer := near_path len;
     points_buffer := disks |}.

(** The cells [(x, y)] of one column [x]. *)
Definition column (x : Z) (ys : list Z) : list Cell := map (pair x) ys.

(** Stations on the path at the given distances from its start. *)
Definition stations (ds : list Z) : list sample :=
  map (fun d => {| sx := inject_Z d; sy := 0; scat := 1; along := inject_Z d |})
      ds.

Definition command (startH endH dep bottom top vr : Q) (limit : Z) : options :=
  {| hres := Some 10; vres := Some vr; pointdist := Some 20;
     endheight := Some endH; depth := Some dep; startheight := Some startH;
     limitrunlayers := Some limit; bottomwidth := Some bottom;
     maxwidth := Some top; sideratio := Some 3; dtmres := Some 10 |}.

(** The terrain: constant [h], with an optional pit of elevation [low] in the
    cell [(0, 0)]. *)
Definition flat (h : Q) : Cell -> option Q := fun _ => Some h.

Definition pit (h low : Q) : Cell -> option Q :=
  fun c => if bool_decide (c = (0, 0)%Z) then Some low else Some h.

(** Four cells across the path at its start: on the axis, 10 and 20 units
    off, and 210 units off (outside the 200 buffer). *)
Definition cross : list Cell := column 0 [0; 10; 20; 210]%Z.

(** Three stations on a path of length 100. *)
Definition three : list sample := stations [0; 50; 100]%Z.

(** The four cells under a flat terrain of elevation 93, 100 or 120, and
    under the terrain of elevation 93 with a pit of elevation 80. *)
Definition site93 : site Cell := place cross (flat 93) 100.
Definition site100 : site Cell := place cross (flat 100) 100.
Definition site120 : site Cell := place cross (flat 120) 100.
Definition site_pit : site Cell := place cross (pit 93 80) 100.

(** From 92 down to 90, depth 7, widths 10 and 50, unit levels. *)
Definition usual : options := command 92 90 7 10 50 1 2000.

(** A rasteriser that writes the buffered rows whatever MASK is in force (the
    MASK acting on the maps a module reads), and the flat terrain of
    elevation 93 with it. *)
Definition open_disks (m : option (Cell -> bool)) (es : list entry) (c : Cell)
  : bool :=
  existsb (fun e => in_disk e c) es.

Definition site_open : site Cell :=
  {| region := cross; terrain := flat 93; line_buffer := near_path 100;
     points_buffer := open_disks |}.

(** From 92 down to 90, depth 1, widths 10 and 500, unit levels: the top
    half-width 250 exceeds the 200 buffer. *)
Definition wide : options := command 92 90 1 10 500 1 2000.

End Transect.

(** * Properties *)

(** ** Rounding, division and indexing *)

Section PyFacts.

Lemma Qfloor_unique (y : Q) (n : Z) :
  inject_Z n <= y -> y < inject_Z n + 1 -> Qfloor y = n.
Proof.
  intros Hlo Hhi.
  pose proof (Qfloor_le y) as Hf.
  pose proof (Qlt_floor y) as Hg.
  rewrite inject_Z_plus in Hg.
  assert (Hfn : (Qfloor y < n + 1)%Z).
  { rewrite Zlt_Qlt, inject_Z_plus. change (inject_Z 1) with 1. lra. }
  assert (Hnf : (n < Qfloor y + 1)%Z).
  { rewrite Zlt_Qlt, inject_Z_plus. change (inject_Z 1) with 1 in *. lra. }
  lia.
Qed.

Lemma Qceiling_unique (y : Q) (n : Z) :
  inject_Z n - 1 < y -> y <= inject_Z n -> Qceiling y = n.
Proof.
  intros Hlo Hhi. unfold Qceiling.
  rewrite (Qfloor_unique (- y) (- n)); [lia | |];
    rewrite inject_Z_opp; lra.
Qed.

Lemma round_nonneg (x : Q) : 0 <= x -> Py.round x = Qfloor (x + (1 # 2)).
Proof.
  intros H. unfold Py.round.
  destruct (Qle_bool 0 x) eqn:E; [reflexivity |].
  apply Qle_bool_iff in H. congruence.
Qed.

Lemma round_neg (x : Q) : x < 0 -> Py.round x = Qceiling (x - (1 # 2)).
Proof.
  intros H. unfold Py.round.
  destruct (Qle_bool 0 x) eqn:E; [| reflexivity].
  apply Qle_bool_iff in E. lra.
Qed.

Lemma round_comp (x y : Q) : x == y -> Py.round x = Py.round y.
Proof.
  intros H.
  destruct (Qlt_le_dec x 0) as [Hn | Hp].
  - rewrite (round_neg x), (round_neg y) by lra.
    apply Qceiling_comp. rewrite H. reflexivity.
  - rewrite (round_nonneg x), (round_nonneg y) by lra.
    apply Qfloor_comp. rewrite H. reflexivity.
Qed.

Lemma round_mono (x y : Q) : x <= y -> (Py.round x <= Py.round y)%Z.
Proof.
  intros H.
  destruct (Qlt_le_dec y 0) as [Hy | Hy].
  - rewrite (round_neg x), (round_neg y) by lra.
    apply Qceiling_resp_le. lra.
  - destruct (Qlt_le_dec x 0) as [Hx | Hx].
    + rewrite (round_neg x Hx), (round_nonneg y Hy).
      transitivity 0%Z.
      * rewrite <- (Qceiling_Z 0). apply Qceiling_resp_le.
        change (inject_Z 0) with 0. lra.
      * rewrite <- (Qfloor_Z 0). apply Qfloor_resp_le.
        change (inject_Z 0) with 0. lra.
    + rewrite (round_nonneg x Hx), (round_nonneg y Hy).
      apply Qfloor_resp_le. lra.
Qed.

(** An integer rounds to itself. *)
Lemma round_inject_Z (z : Z) : Py.round (inject_Z z) = z.
Proof.
  destruct (Qlt_le_dec (inject_Z z) 0) as [Hn | Hp].
  - rewrite (round_neg _ Hn). apply Qceiling_unique; lra.
  - rewrite (round_nonneg _ Hp). apply Qfloor_unique; lra.
Qed.

Lemma div_Ok (x y q : Q) : Py.div x y = Ok q -> ~ y == 0 /\ q = x / y.
Proof.
  unfold Py.div. destruct (Qeq_bool y 0) eqn:E; [discriminate |].
  intros H. injection H as <-. split; [| reflexivity].
  intros Hy. apply Qeq_bool_iff in Hy. congruence.
Qed.

Lemma div_nonzero (x y : Q) : ~ y == 0 -> Py.div x y = Ok (x / y).
Proof.
  intros H. unfold Py.div. destruct (Qeq_bool y 0) eqn:E; [| reflexivity].
  apply Qeq_bool_iff in E. contradiction.
Qed.

Lemma div_zero (x y : Q) : y == 0 -> Py.div x y = Raise ZeroDivisionError.
Proof.
  intros H. unfold Py.div. apply Qeq_bool_iff in H. rewrite H. reflexivity.
Qed.

Lemma elem_of_range (a b n : Z) : n ∈ Py.range a b <-> (a <= n < b)%Z.
Proof. unfold Py.range. rewrite elem_of_seqZ. lia. Qed.

Lemma NoDup_range (a b : Z) : NoDup (Py.range a b).
Proof. apply NoDup_seqZ. Qed.

End PyFacts.

(** ** The level table and the level assignment *)

Section LevelFacts.

Variables vRes endHeight startHeight chWidth chMaxWidth sideRatio : Q.
Variable vLevels : Z.

Lemma level_table_foldl (l : list Z) (h : list Z) (d : gmap Z (list entry)) :
  foldl (fun '(hSeries, db) n =>
           (hSeries ++ [elevation vRes endHeight n], <[n := []]> db))
        (h, d) l
  = (h ++ map (elevation vRes endHeight) l,
     foldl (fun db n => <[n := []]> db) d l).
Proof.
  revert h d. induction l as [| n l IH]; intros h d; simpl.
  - rewrite app_nil_r. reflexivity.
  - rewrite IH, <- app_assoc. reflexivity.
Qed.

Lemma level_table_hSeries :
  fst (level_table vRes endHeight vLevels)
  = map (elevation vRes endHeight) (Py.range 1 vLevels).
Proof. unfold level_table. rewrite level_table_foldl. reflexivity. Qed.

Lemma empty_levels_lookup (l : list Z) (d : gmap Z (list entry)) (n : Z) :
  foldl (fun db n => <[n := []]> db) d l !! n
  = if decide (n ∈ l) then Some [] else d !! n.
Proof.
  revert d. induction l as [| k l IH]; intros d; cbn [foldl].
  - destruct (decide (n ∈ [])) as [H | H]; [| reflexivity].
    apply elem_of_nil in H. contradiction.
  - rewrite IH.
    destruct (decide (n ∈ l)) as [Hin | Hnin];
      destruct (decide (n ∈ k :: l)) as [Hin' | Hnin'];
      rewrite elem_of_cons in *; try reflexivity; try tauto.
    + destruct Hin' as [-> | Hin']; [| contradiction].
      apply lookup_insert_eq.
    + apply lookup_insert_ne. intros ->. tauto.
Qed.

(** The fresh [db] has exactly the keys [1 .. vLevels-1], each empty. *)
Lemma level_table_db (n : Z) :
  snd (level_table vRes endHeight vLevels) !! n
  = if decide (1 <= n < vLevels)%Z then Some [] else None.
Proof.
  unfold level_table. rewrite level_table_foldl. simpl.
  rewrite empty_levels_lookup, lookup_empty.
  destruct (decide (n ∈ Py.range 1 vLevels)) as [Hin | Hnin];
    rewrite elem_of_range in *.
  - rewrite decide_True by lia. reflexivity.
  - rewrite decide_False by lia. reflexivity.
Qed.

(** [hSeries[n-1]] is the elevation of level [n]. *)
Lemma hSeries_index (n : Z) :
  (1 <= n < vLevels)%Z ->
  Py.index (fst (level_table vRes endHeight vLevels)) (n - 1)
  = Ok (elevation vRes endHeight n).
Proof.
  intros Hn. unfold Py.index.
  destruct (n - 1 <? 0)%Z eqn:E; [lia |]. rewrite E.
  rewrite level_table_hSeries, list_lookup_fmap. unfold Py.range.
  rewrite (lookup_seqZ_lt 1 (vLevels - 1) (Z.to_nat (n - 1))) by lia.
  simpl. do 2 f_equal. lia.
Qed.

Lemma append_Ok (db db' : gmap Z (list entry)) (k : Z) (e : entry) :
  append db k e = Ok db' ->
  exists l, db !! k = Some l /\ db' = <[k := l ++ [e]]> db.
Proof.
  unfold append, Py.getitem. destruct (db !! k) as [l |]; simpl; [| discriminate].
  intros H. injection H as <-. eauto.
Qed.

Lemma rfold_level_up (aLine : sample) (level : Z) (l : list Z) :
  forall db db',
    NoDup l ->
    rfold (level_up vRes chWidth chMaxWidth sideRatio aLine level) db l
    = Ok db' ->
    forall n,
      db' !! n
      = (fun rows =>
           rows ++
           if bool_decide (n ∈ l)
              && Qle_bool (buffer_width vRes chWidth sideRatio level n)
                          (chMaxWidth / 2)
           then [row aLine (buffer_width vRes chWidth sideRatio level n)]
           else []) <$> db !! n.
Proof.
  induction l as [| k l IH]; intros db db' Hnd H n; simpl in H.
  - injection H as <-.
    rewrite bool_decide_eq_false_2 by apply not_elem_of_nil. simpl.
    destruct (db !! n); simpl; [rewrite app_nil_r |]; reflexivity.
  - apply NoDup_cons in Hnd as [Hk Hnd].
    destruct (level_up _ _ _ _ _ _ db k) as [db1 |] eqn:E1; [| discriminate].
    simpl in H. rewrite (IH db1 db' Hnd H n). clear IH H.
    unfold level_up in E1.
    destruct (decide (n = k)) as [-> | Hne].
    + rewrite (bool_decide_eq_false_2 (k ∈ l)) by exact Hk.
      rewrite (bool_decide_eq_true_2 (k ∈ k :: l)) by left. simpl.
      destruct (Qle_bool _ _).
      * apply append_Ok in E1 as (rows & Hrows & ->).
        rewrite lookup_insert_eq, Hrows. simpl.
        rewrite app_nil_r. reflexivity.
      * injection E1 as <-. destruct (db !! k); simpl;
          [rewrite app_nil_r |]; reflexivity.
    + assert (Hdb : db1 !! n = db !! n).
      { destruct (Qle_bool _ _).
        - apply append_Ok in E1 as (rows & Hrows & ->).
          apply lookup_insert_ne. congruence.
        - injection E1 as <-. reflexivity. }
      rewrite Hdb.
      destruct (decide (n ∈ l)) as [Hin | Hnin].
      * rewrite (bool_decide_eq_true_2 (n ∈ l)) by exact Hin.
        rewrite (bool_decide_eq_true_2 (n ∈ k :: l)) by (right; exact Hin).
        reflexivity.
      * rewrite (bool_decide_eq_false_2 (n ∈ l)) by exact Hnin.
        rewrite (bool_decide_eq_false_2 (n ∈ k :: l))
          by (rewrite elem_of_cons; tauto).
        reflexivity.
Qed.

Lemma station_Ok (hSeries : list Z) (quo : Q) (db db' : gmap Z (list entry))
    (aLine : sample) :
  station vRes endHeight startHeight chWidth chMaxWidth sideRatio vLevels
    hSeries quo db aLine = Ok db' ->
  exists level,
    own_level vRes endHeight startHeight quo aLine = Ok level /\
    (exists layer, Py.index hSeries (level - 1) = Ok layer) /\
    is_Some (db !! level) /\
    forall n,
      db' !! n
      = (fun rows =>
           rows ++ rows_at vRes chWidth chMaxWidth sideRatio vLevels
                     aLine level n) <$> db !! n.
Proof.
  unfold station. intros H.
  destruct (own_level _ _ _ _ _) as [level |]; [| discriminate].
  simpl in H.
  destruct (Py.index hSeries (level - 1)) as [layer |] eqn:Ei; [| discriminate].
  simpl in H.
  destruct (append db level _) as [db1 |] eqn:Ea; [| discriminate].
  simpl in H.
  apply append_Ok in Ea as (l & Hl & ->).
  exists level. split; [reflexivity |]. split; [eauto |]. split; [eauto |].
  intros n.
  rewrite (rfold_level_up _ _ _ _ _ (NoDup_range _ _) H n). unfold rows_at.
  destruct (decide (n = level)) as [-> | Hne].
  - rewrite lookup_insert_eq, Hl.
    rewrite bool_decide_eq_false_2 by (rewrite elem_of_range; lia).
    simpl. rewrite app_nil_r. reflexivity.
  - rewrite lookup_insert_ne by congruence.
    rewrite (bool_decide_ext (n ∈ Py.range (level + 1) vLevels)
               (level < n < vLevels)%Z)
      by (rewrite elem_of_range; lia).
    reflexivity.
Qed.

(** The level table after the loop over the stations: each level holds, in
    station order, the rows the stations add to it. *)
Lemma assign_Ok (hSeries : list Z) (quo : Q) (lines : list sample) :
  forall db db',
    rfold (station vRes endHeight startHeight chWidth chMaxWidth sideRatio
             vLevels hSeries quo) db lines = Ok db' ->
    (forall n,
       db' !! n
       = (fun rows =>
            rows ++ flat_map
                      (fun s => station_rows vRes endHeight startHeight
                                  chWidth chMaxWidth sideRatio vLevels quo s n)
                      lines) <$> db !! n) /\
    Forall (fun s =>
              exists level,
                own_level vRes endHeight startHeight quo s = Ok level /\
                (exists layer, Py.index hSeries (level - 1) = Ok layer) /\
                is_Some (db !! level)) lines.
Proof.
  induction lines as [| s lines IH]; intros db db' H; simpl in H.
  - injection H as <-. split; [| constructor].
    intros n. simpl. destruct (db !! n); simpl;
      [rewrite app_nil_r |]; reflexivity.
  - destruct (station _ _ _ _ _ _ _ _ _ db s) as [db1 |] eqn:Es;
      [| discriminate].
    simpl in H. apply station_Ok in Es as (level & Hlev & Hidx & Hsome & Hdb1).
    destruct (IH db1 db' H) as [Hdb' Hall]. split.
    + intros n. rewrite Hdb', Hdb1. simpl.
      unfold station_rows at 2. rewrite Hlev.
      destruct (db !! n); simpl; [rewrite <- app_assoc |]; reflexivity.
    + constructor.
      * exists level. auto.
      * eapply Forall_impl; [exact Hall |].
        intros s' (level' & Hl' & Hi' & Hs'). exists level'.
        split; [exact Hl' |]. split; [exact Hi' |].
        rewrite Hdb1 in Hs'. apply fmap_is_Some in Hs'. exact Hs'.
Qed.

End LevelFacts.

(** ** The session monad *)

Section SessionFacts.

Context {Cell : Type}.
Variable here : site Cell.

Lemma bind_Ok {A B} (m : M A) (f : A -> M B) (w w' : world Cell) (b : B) :
  (m ≫= f) w = (Ok b, w') ->
  exists a w1, m w = (Ok a, w1) /\ f a w1 = (Ok b, w').
Proof.
  unfold mbind, M_bind. destruct (m w) as [[a | e] w1]; intros H.
  - eauto.
  - discriminate.
Qed.

Lemma lift_Ok {A} (r : result A) (w w' : world Cell) (a : A) :
  lift r w = (Ok a, w') -> r = Ok a /\ w' = w.
Proof. unfold lift. intros H. injection H as -> ->. auto. Qed.

Lemma says_app (t1 t2 : list event) : says (t1 ++ t2) = says t1 ++ says t2.
Proof. unfold says. apply omap_app. Qed.

Lemma says_log_grass (w : world Cell) (module : string) :
  says (trace (log (Grass module) w)) = says (trace w).
Proof. simpl. rewrite says_app. simpl. apply app_nil_r. Qed.

Lemma says_log_say (w : world Cell) (m : msg) :
  says (trace (log (Say m) w)) = says (trace w) ++ [m].
Proof. simpl. rewrite says_app. reflexivity. Qed.

Lemma rast_set_rast (r r' : rname) (g : option (grid Cell)) (w : world Cell) :
  rast (set_rast r g w) r' = if decide (r' = r) then g else rast w r'.
Proof. reflexivity. Qed.

Lemma rast_log (e : event) (w : world Cell) (r : rname) :
  rast (log e w) r = rast w r.
Proof. reflexivity. Qed.

Lemma rast_set_mask (m : option (Cell -> bool)) (w : world Cell) (r : rname) :
  rast (set_mask m w) r = rast w r.
Proof. reflexivity. Qed.

Lemma mask_log (e : event) (w : world Cell) : mask (log e w) = mask w.
Proof. reflexivity. Qed.

Lemma trace_set_rast (r : rname) (g : option (grid Cell)) (w : world Cell) :
  trace (set_rast r g w) = trace w.
Proof. reflexivity. Qed.

Lemma r_mapcalc_Ok (out : rname) (e : mexpr) (w w1 : world Cell) :
  r_mapcalc out e w = (Ok tt, w1) ->
  forallb (exists_map w) (maps e) = true /\
  w1 = set_rast out (Some (fun c => eval (cell_env w c) e))
         (log (Grass "r.mapcalc") w).
Proof.
  unfold r_mapcalc. destruct (forallb _ _); [| discriminate].
  intros H. injection H as <-. auto.
Qed.

Lemma g_rename_Ok (a b : rname) (w w1 : world Cell) :
  g_rename a b w = (Ok tt, w1) ->
  exists g, rast w a = Some g /\
    w1 = set_rast b (Some g) (set_rast a None (log (Grass "g.rename") w)).
Proof.
  unfold g_rename. destruct (rast w a) as [g |]; [| discriminate].
  intros H. injection H as <-. eauto.
Qed.

Lemma has_rows_length (db : gmap Z (list entry)) (n : Z) (l : list entry) :
  db !! n = Some l -> (0 <? Z.of_nat (List.length l))%Z = has_rows db n.
Proof. intros H. unfold has_rows. rewrite H. destruct l; reflexivity. Qed.

(** *** Rasterising the levels (lines 339-346) *)

Lemma rasterize_step (hSeries : list Z) (db : gmap Z (list entry)) (n : Z)
    (w w1 : world Cell) :
  pascii w = db ->
  rasterize here hSeries db n w = (Ok tt, w1) ->
  mask w1 = mask w /\ pascii w1 = pascii w /\
  says (trace w1) = says (trace w) /\
  (forall r, r <> BufDiss n -> rast w1 r = rast w r) /\
  (has_rows db n = true ->
   exists level, Py.index hSeries (n - 1) = Ok level /\
     rast w1 (BufDiss n) = Some (stamp here (mask w) (rows db n) level)).
Proof.
  intros Hp H. unfold rasterize in H.
  apply bind_Ok in H as (l & w0 & Hl & H).
  apply lift_Ok in Hl as [Hl ->].
  unfold Py.getitem in Hl. destruct (db !! n) as [l' |] eqn:Edb; [| discriminate].
  injection Hl as ->.
  rewrite (has_rows_length db n l Edb) in H.
  destruct (has_rows db n) eqn:Eh.
  - apply bind_Ok in H as (es & w2 & Hes & H).
    unfold v_in_ascii in Hes. rewrite Hp, Edb in Hes. injection Hes as <- <-.
    apply bind_Ok in H as ([] & w3 & H3 & H). injection H3 as <-.
    apply bind_Ok in H as ([] & w4 & H4 & H). injection H4 as <-.
    apply bind_Ok in H as (level & w5 & H5 & H).
    apply lift_Ok in H5 as [H5 ->].
    apply bind_Ok in H as ([] & w6 & H6 & H). injection H6 as <-.
    unfold v_to_rast in H. injection H as <-.
    repeat split; try reflexivity.
    + simpl. rewrite !says_app. simpl. rewrite !app_nil_r. reflexivity.
    + intros r Hr. simpl. rewrite decide_False by exact Hr. reflexivity.
    + intros _. exists level. split; [exact H5 |]. simpl.
      rewrite decide_True by reflexivity. unfold rows. rewrite Edb.
      reflexivity.
  - injection H as <-. repeat split; try reflexivity. discriminate.
Qed.

Lemma for_rasterize (hSeries : list Z) (db : gmap Z (list entry))
    (l : list Z) :
  forall w w' : world Cell,
    pascii w = db ->
    for_ l (rasterize here hSeries db) w = (Ok tt, w') ->
    mask w' = mask w /\ pascii w' = pascii w /\
    says (trace w') = says (trace w) /\
    (forall r, (forall n, r = BufDiss n -> n ∉ l) -> rast w' r = rast w r) /\
    (forall n, n ∈ l -> has_rows db n = true ->
       exists level, Py.index hSeries (n - 1) = Ok level /\
         rast w' (BufDiss n) = Some (stamp here (mask w) (rows db n) level)).
Proof.
  induction l as [| k l IH]; intros w w' Hp H; simpl in H.
  - injection H as <-. repeat split; try reflexivity.
    intros n Hn. apply elem_of_nil in Hn. contradiction.
  - apply bind_Ok in H as ([] & w1 & Hk & H).
    destruct (rasterize_step _ _ _ _ _ Hp Hk) as (Hm1 & Hp1 & Hs1 & Hf1 & Hr1).
    assert (Hp1' : pascii w1 = db) by congruence.
    destruct (IH w1 w' Hp1' H) as (Hm & Hpa & Hs & Hf & Hr).
    split; [congruence |]. split; [congruence |]. split; [congruence |].
    split.
    + intros r Hr'. rewrite Hf, Hf1; [reflexivity | |].
      * intros ->. apply (Hr' k); [reflexivity | left].
      * intros n ->. intros Hin. apply (Hr' n); [reflexivity | right; exact Hin].
    + intros n Hn Hrows.
      destruct (decide (n ∈ l)) as [Hin | Hnin].
      * destruct (Hr n Hin Hrows) as (level & Hi & Hrast).
        exists level. split; [exact Hi |]. rewrite Hrast, Hm1. reflexivity.
      * apply elem_of_cons in Hn as [-> | Hn]; [| contradiction].
        destruct (Hr1 Hrows) as (level & Hi & Hrast).
        exists level. split; [exact Hi |].
        rewrite Hf; [exact Hrast |].
        intros n Heq. injection Heq as <-. exact Hnin.
Qed.

(** *** The envelope sweep (lines 355-360) *)

Lemma eval_envelope (env : rname -> option Q) (f : rname) :
  eval env (envelope f) = lower (env f) (env Source).
Proof.
  unfold envelope, lower. simpl.
  destruct (env f) as [x |]; simpl; [| reflexivity].
  destruct (env Source) as [y |]; simpl; [| reflexivity].
  destruct (Qle_bool y x); reflexivity.
Qed.

Lemma apply_step (db : gmap Z (list entry)) (n : Z) (w w1 : world Cell) :
  mask w = None ->
  apply_level db n w = (Ok tt, w1) ->
  mask w1 = None /\ pascii w1 = pascii w /\
  (forall r, r <> Source -> r <> Temp -> rast w1 r = rast w r) /\
  if has_rows db n
  then says (trace w1) = says (trace w) ++ [Applying n] /\
       exists f g g1,
         rast w (BufDiss n) = Some f /\ rast w Source = Some g /\
         rast w1 Source = Some g1 /\
         forall c, g1 c = lower (f c) (g c)
  else w1 = w.
Proof.
  intros Hmask H. unfold apply_level in H.
  apply bind_Ok in H as (l & w0 & Hl & H).
  apply lift_Ok in Hl as [Hl ->].
  unfold Py.getitem in Hl. destruct (db !! n) as [l' |] eqn:Edb; [| discriminate].
  injection Hl as ->.
  rewrite (has_rows_length db n l Edb) in H.
  destruct (has_rows db n) eqn:Eh.
  - apply bind_Ok in H as ([] & w2 & H2 & H). injection H2 as <-.
    apply bind_Ok in H as ([] & w3 & H3 & H).
    apply r_mapcalc_Ok in H3 as [Eall ->].
    apply g_rename_Ok in H as (g1 & Eg1 & ->).
    rewrite rast_set_rast, decide_True in Eg1 by reflexivity.
    apply (inj Some) in Eg1. subst g1.
    simpl in Eall. unfold exists_map in Eall.
    rewrite !rast_log in Eall.
    destruct (rast w (BufDiss n)) as [f |] eqn:Ef; [| discriminate].
    destruct (rast w Source) as [g |] eqn:Eg; [| discriminate].
    split; [exact Hmask |]. split; [reflexivity |]. split.
    + intros r Hs Ht.
      repeat first [ rewrite rast_log | rewrite rast_set_rast
                   | rewrite decide_False by assumption ].
      reflexivity.
    + split.
      * repeat first [ rewrite trace_set_rast | rewrite says_log_grass
                     | rewrite says_log_say ].
        reflexivity.
      * eexists f, g, _. split; [reflexivity |]. split; [reflexivity |].
        split; [rewrite rast_set_rast, decide_True by reflexivity;
                reflexivity |].
        intros c. cbv beta. rewrite eval_envelope. unfold cell_env.
        rewrite !rast_log, Ef, Eg, mask_log, Hmask. reflexivity.
  - injection H as <-. split; [exact Hmask |]. split; [reflexivity |].
    split; [reflexivity |]. reflexivity.
Qed.

Lemma for_apply (db : gmap Z (list entry)) (l : list Z) :
  forall (w w' : world Cell) (g : grid Cell),
    mask w = None ->
    rast w Source = Some g ->
    for_ l (apply_level db) w = (Ok tt, w') ->
    mask w' = None /\ pascii w' = pascii w /\
    (forall r, r <> Source -> r <> Temp -> rast w' r = rast w r) /\
    says (trace w') = says (trace w) ++ map Applying (List.filter (has_rows db) l) /\
    exists g',
      rast w' Source = Some g' /\
      forall F : Z -> grid Cell,
        (forall n, n ∈ l -> has_rows db n = true ->
           rast w (BufDiss n) = Some (F n)) ->
        forall c,
          g' c = foldl (fun s n => lower (F n c) s) (g c)
                   (List.filter (has_rows db) l).
Proof.
  induction l as [| k l IH]; intros w w' g Hmask Hg H; simpl in H.
  - injection H as <-. split; [exact Hmask |]. split; [reflexivity |].
    split; [reflexivity |]. split; [simpl; rewrite app_nil_r; reflexivity |].
    exists g. split; [exact Hg |]. reflexivity.
  - apply bind_Ok in H as ([] & w1 & Hk & H).
    destruct (apply_step _ _ _ _ Hmask Hk) as (Hm1 & Hp1 & Hf1 & Hcase).
    simpl List.filter. destruct (has_rows db k) eqn:Ek.
    + destruct Hcase as (Hs1 & f & g0 & g1 & Ef & Eg0 & Eg1 & Hg1).
      destruct (IH w1 w' g1 Hm1 Eg1 H) as (Hm & Hp & Hf & Hs & g' & Eg' & Hg').
      split; [exact Hm |]. split; [congruence |]. split.
      { intros r Hr1 Hr2. rewrite Hf, Hf1 by assumption. reflexivity. }
      split.
      { rewrite Hs, Hs1, <- app_assoc. reflexivity. }
      exists g'. split; [exact Eg' |].
      intros F HF c. simpl.
      rewrite (Hg' F).
      * rewrite Hg1. f_equal.
        assert (Some g0 = Some g) as Hgg by congruence.
        injection Hgg as ->.
        assert (Some f = Some (F k)) as Hff.
        { rewrite <- Ef. apply HF; [left | exact Ek]. }
        injection Hff as ->. reflexivity.
      * intros n Hn Hrows. rewrite Hf1 by discriminate.
        apply HF; [right; exact Hn | exact Hrows].
    + subst w1.
      destruct (IH w w' g Hmask Hg H) as (Hm & Hp & Hf & Hs & g' & Eg' & Hg').
      split; [exact Hm |]. split; [exact Hp |]. split; [exact Hf |].
      split; [exact Hs |].
      exists g'. split; [exact Eg' |].
      intros F HF c. apply Hg'.
      intros n Hn Hrows. apply HF; [right; exact Hn | exact Hrows].
Qed.

Lemma omap_pointwise {A B} (f g : A -> option B) (l : list A) :
  (forall a, f a = g a) -> omap f l = omap g l.
Proof.
  intros Hfg. induction l as [| a l IH]; [reflexivity |].
  csimpl. rewrite Hfg, IH. reflexivity.
Qed.

(** *** A run that returns *)

Lemma run_Ok (opts : options) (lines : list sample) (z : Z) (w : world Cell) :
  run here opts lines = (Ok z, w) ->
  let hRes := ensureopt (hres opts) 10 in
  let vRes := ensureopt (vres opts) 1 in
  let endHeight := ensureopt (endheight opts) 100 in
  let depth := ensureopt (depth opts) 5 in
  let startHeight := ensureopt (startheight opts) 1000 in
  let limitRunLayers := ensureopt (limitrunlayers opts) 2000%Z in
  let chWidth := ensureopt (bottomwidth opts) 100 in
  let chMaxWidth := ensureopt (maxwidth opts) 300 in
  exists sideRatio last peak x quo db,
    (x ← Py.div (chMaxWidth - chWidth) 2; Py.div x depth) = Ok sideRatio /\
    Py.index lines (-1) = Ok last /\
    maximum (omap (read (Some (line_buffer here (chMaxWidth / 2)))
                     (terrain here)) (region here)) = Ok peak /\
    Py.div (peak + vRes - endHeight) vRes = Ok x /\
    Py.div (endHeight - startHeight) (along last) = Ok quo /\
    let vLevels := (Py.round x + 2)%Z in
    rfold (station vRes endHeight startHeight chWidth chMaxWidth sideRatio
             vLevels (fst (level_table vRes endHeight vLevels)) quo)
          (snd (level_table vRes endHeight vLevels)) lines = Ok db /\
    pascii w = db /\
    mask w = None /\
    let levels := applied db vLevels limitRunLayers in
    exists es df,
      rast w Dtm = Some es /\
      rast w Diff = Some df /\
      (forall c, es c = fill here (sweep here vRes endHeight db levels c) c) /\
      (forall c, df c = difference here (es c) c) /\
      says (trace w)
      = [PathLength (along last); Profile; MaximumHeight (peak + vRes);
         NumberOfLevels vLevels; StartHeight startHeight;
         EndHeight endHeight; SlopeRatio quo]
        ++ map Applying levels
        ++ [CalculatingVolume]
        ++ report hRes
             (total (omap (read (Some (line_buffer here 200)) df)
                       (region here))).
Proof.
  unfold run, main. intros H. cbv zeta in H.
  apply bind_Ok in H as (sideRatio & w1 & Hside & H).
  apply lift_Ok in Hside as [Hside ->].
  apply bind_Ok in H as ([] & w1 & H1 & H). injection H1 as <-.
  apply bind_Ok in H as ([] & w1 & H1 & H). injection H1 as <-.
  apply bind_Ok in H as ([] & w1 & H1 & H). injection H1 as <-.
  apply bind_Ok in H as ([] & w1 & H1 & H). injection H1 as <-.
  apply bind_Ok in H as ([] & w1 & H1 & H). injection H1 as <-.
  apply bind_Ok in H as (last & w1 & Hlast & H).
  apply lift_Ok in Hlast as [Hlast ->].
  apply bind_Ok in H as ([] & w1 & H1 & H). injection H1 as <-.
  apply bind_Ok in H as ([] & w1 & H1 & H). injection H1 as <-.
  apply bind_Ok in H as (maxbuf & w1 & H1 & H).
  unfold v_buffer_line in H1.
  apply bind_Ok in H1 as ([] & w2 & H2 & H1). injection H2 as <-.
  injection H1 as <- <-.
  apply bind_Ok in H as ([] & w1 & H1 & H). injection H1 as <-.
  apply bind_Ok in H as ([] & w1 & H1 & H).
  apply r_mapcalc_Ok in H1 as [_ ->].
  apply bind_Ok in H as (kv & w1 & Hkv & H).
  unfold r_univar in Hkv.
  rewrite rast_set_rast, decide_True in Hkv by reflexivity.
  injection Hkv as <- <-.
  apply bind_Ok in H as (peak & w1 & Hpeak & H).
  apply lift_Ok in Hpeak as [Hpeak ->].
  apply bind_Ok in H as ([] & w1 & H1 & H). injection H1 as <-.
  apply bind_Ok in H as ([] & w1 & H1 & H). injection H1 as <-.
  apply bind_Ok in H as (x & w1 & Hx & H).
  apply lift_Ok in Hx as [Hx ->].
  apply bind_Ok in H as ([] & w1 & H1 & H). injection H1 as <-.
  destruct (level_table _ _ _) as [hSeries db0] eqn:Etab.
  apply bind_Ok in H as (quo & w1 & Hquo & H).
  apply lift_Ok in Hquo as [Hquo ->].
  apply bind_Ok in H as ([] & w1 & H1 & H). injection H1 as <-.
  apply bind_Ok in H as ([] & w1 & H1 & H). injection H1 as <-.
  apply bind_Ok in H as ([] & w1 & H1 & H). injection H1 as <-.
  apply bind_Ok in H as (db & w1 & Hdb & H).
  apply lift_Ok in Hdb as [Hdb ->].
  apply bind_Ok in H as ([] & w1 & H1 & H). injection H1 as <-.
  apply bind_Ok in H as ([] & w1 & H1 & H). injection H1 as <-.
  apply bind_Ok in H as ([] & w1 & H1 & H). injection H1 as <-.
  apply bind_Ok in H as (buf200 & w1 & H1 & H).
  unfold v_buffer_line in H1.
  apply bind_Ok in H1 as ([] & w2 & H2 & H1). injection H2 as <-.
  injection H1 as <- <-.
  apply bind_Ok in H as ([] & w1 & H1 & H). injection H1 as <-.
  match type of H with
  | (for_ _ _ ≫= _) ?w0 = _ => set (wa := w0) in *
  end.
  assert (Hmask_a : mask wa = Some (line_buffer here 200)) by reflexivity.
  assert (Hpascii_a : pascii wa = db) by reflexivity.
  assert (Hdtm_a : rast wa Basedtm = Some (terrain here)) by reflexivity.
  assert (Hsays_a : says (trace wa)
                    = [PathLength (along last); Profile;
                       MaximumHeight (peak + ensureopt (vres opts) 1);
                       NumberOfLevels (Py.round x + 2);
                       StartHeight (ensureopt (startheight opts) 1000);
                       EndHeight (ensureopt (endheight opts) 100);
                       SlopeRatio quo]) by reflexivity.
  clearbody wa.
  apply bind_Ok in H as ([] & wb & Hloop & H).
  destruct (for_rasterize _ _ _ _ _ Hpascii_a Hloop)
    as (Hmask_b & Hpascii_b & Hsays_b & Hframe_b & Hmaps_b).
  clear Hloop.
  apply bind_Ok in H as ([] & w1 & H1 & H). injection H1 as <-.
  apply bind_Ok in H as ([] & w1 & H1 & H). injection H1 as <-.
  apply bind_Ok in H as ([] & w1 & H1 & H). injection H1 as <-.
  apply bind_Ok in H as ([] & w1 & H1 & H).
  apply r_mapcalc_Ok in H1 as [_ ->].
  match type of H with
  | (for_ _ _ ≫= _) ?w0 = _ => set (wc := w0) in *
  end.
  assert (Hmask_c : mask wc = None) by reflexivity.
  assert (Hpascii_c : pascii wc = pascii wb) by reflexivity.
  assert (Hframe_c : forall r, r <> Source -> rast wc r = rast wb r).
  { intros r Hr. subst wc. rewrite rast_set_rast, decide_False by exact Hr.
    reflexivity. }
  assert (Hsrc_c : exists g, rast wc Source = Some g /\
                     forall c, g c = terrain here c).
  { eexists. split.
    - subst wc. rewrite rast_set_rast, decide_True by reflexivity.
      reflexivity.
    - intros c. cbv beta. simpl eval. unfold cell_env.
      rewrite !rast_log, rast_set_mask, rast_log, (Hframe_b Basedtm),
        Hdtm_a by discriminate.
      reflexivity. }
  assert (Hsays_c : says (trace wc) = says (trace wb)).
  { subst wc. simpl. rewrite !says_app. simpl. rewrite !app_nil_r.
    reflexivity. }
  clearbody wc.
  destruct Hsrc_c as (g & Hsrc_c & Hg).
  apply bind_Ok in H as ([] & wd & Hloop & H).
  destruct (for_apply _ _ _ _ _ Hmask_c Hsrc_c Hloop)
    as (Hmask_d & Hpascii_d & Hframe_d & Hsays_d & g' & Hsrc_d & Hsweep).
  clear Hloop.
  apply bind_Ok in H as ([] & w1 & H1 & H).
  apply r_mapcalc_Ok in H1 as [_ ->].
  set (es := fun c : Cell => eval (cell_env wd c) _) in H.
  apply bind_Ok in H as ([] & w1 & H1 & H). injection H1 as <-.
  apply bind_Ok in H as ([] & w1 & H1 & H). injection H1 as <-.
  apply bind_Ok in H as ([] & w1 & H1 & H). injection H1 as <-.
  apply bind_Ok in H as ([] & w1 & H1 & H). injection H1 as <-.
  apply bind_Ok in H as ([] & w1 & H1 & H). injection H1 as <-.
  apply bind_Ok in H as ([] & w1 & H1 & H). injection H1 as <-.
  apply bind_Ok in H as ([] & w1 & H1 & H). injection H1 as <-.
  apply bind_Ok in H as ([] & w1 & H1 & H).
  apply r_mapcalc_Ok in H1 as [_ ->].
  match type of H with
  | context [set_rast Diff (Some ?d) _] => set (df := d) in H
  end.
  apply bind_Ok in H as (kv & w1 & Hkv & H).
  unfold r_univar in Hkv.
  rewrite rast_set_rast, decide_True in Hkv by reflexivity.
  injection Hkv as <- <-.
  apply bind_Ok in H as ([] & w1 & H1 & H). injection H1 as <-.
  apply bind_Ok in H as ([] & w1 & H1 & H). injection H1 as <-.
  apply bind_Ok in H as ([] & w1 & H1 & H). injection H1 as <-.
  apply bind_Ok in H as ([] & w1 & H1 & H). injection H1 as <-.
  apply bind_Ok in H as ([] & w1 & H1 & H). injection H1 as <-.
  apply bind_Ok in H as ([] & w1 & H1 & H). injection H1 as <-.
  apply bind_Ok in H as ([] & w1 & H1 & H). injection H1 as <-.
  apply bind_Ok in H as ([] & w1 & H1 & H). injection H1 as <-.
  apply bind_Ok in H as ([] & w1 & H1 & H). injection H1 as <-.
  injection H as <- <-.
  assert (Htab : hSeries = fst (level_table (ensureopt (vres opts) 1)
                                  (ensureopt (endheight opts) 100)
                                  (Py.round x + 2))
                 /\ db0 = snd (level_table (ensureopt (vres opts) 1)
                                 (ensureopt (endheight opts) 100)
                                 (Py.round x + 2))).
  { rewrite Etab. split; reflexivity. }
  destruct Htab as [-> ->]. clear Etab.
  assert (Hdtm_d : rast wd Basedtm = Some (terrain here)).
  { rewrite Hframe_d by discriminate. rewrite Hframe_c by discriminate.
    rewrite Hframe_b; [exact Hdtm_a |]. intros n Hn. discriminate. }
  assert (Hes : forall c,
             es c = fill here
                      (sweep here (ensureopt (vres opts) 1)
                         (ensureopt (endheight opts) 100) db
                         (applied db (Py.round x + 2)
                            (ensureopt (limitrunlayers opts) 2000%Z)) c) c).
  { intros c. subst es. cbv beta. simpl eval. unfold cell_env.
    rewrite Hsrc_d, Hdtm_d, Hmask_d. unfold read.
    rewrite (Hsweep (level_map here (ensureopt (vres opts) 1)
                       (ensureopt (endheight opts) 100) db)).
    - rewrite Hg. unfold sweep, applied, fill.
      destruct (foldl _ _ _); reflexivity.
    - intros n Hn Hrows. rewrite Hframe_c by discriminate.
      destruct (Hmaps_b n Hn Hrows) as (level & Hi & Hr).
      rewrite Hr, Hmask_a. unfold level_map.
      apply elem_of_range in Hn.
      rewrite hSeries_index in Hi by lia. injection Hi as <-.
      reflexivity. }
  assert (Hdf : forall c, df c = difference here (es c) c).
  { intros c. subst df. cbv beta. simpl eval. unfold cell_env, difference.
    simpl. rewrite Hdtm_d.
    destruct (line_buffer here 200 c); [| reflexivity].
    destruct (terrain here c); reflexivity. }
  exists sideRatio, last, peak, x, quo, db.
  split; [exact Hside |]. split; [exact Hlast |]. split.
  { rewrite <- Hpeak. f_equal. apply omap_pointwise. intros c.
    unfold cell_env, read. simpl.
    destruct (line_buffer here _ c); reflexivity. }
  split; [exact Hx |]. split; [exact Hquo |]. split; [exact Hdb |].
  split.
  { simpl. congruence. }
  split; [reflexivity |].
  exists es, df.
  split; [reflexivity |]. split; [reflexivity |].
  split; [exact Hes |]. split; [exact Hdf |].
  simpl trace. rewrite !says_app. simpl.
  rewrite !app_nil_r, Hsays_d, Hsays_c, Hsays_b, Hsays_a.
  unfold applied, report. rewrite <- !app_assoc. reflexivity.
Qed.

End SessionFacts.

(** ** Level elevations *)

Section ElevationFacts.

Variables vRes endHeight : Q.

Lemma elevation_mono (n m : Z) :
  0 <= vRes -> (n <= m)%Z ->
  (elevation vRes endHeight n <= elevation vRes endHeight m)%Z.
Proof.
  intros Hv Hnm. unfold elevation. apply round_mono.
  assert (H : inject_Z (n - 1) <= inject_Z (m - 1))
    by (rewrite <- Zle_Qle; lia).
  nra.
Qed.

End ElevationFacts.

(** ** Runs of the script *)

Section RunFacts.

Context {Cell : Type}.
Variable here : site Cell.

Lemma fold_left_Qmax_ge (vs : list Q) (v : Q) : v <= fold_left Qmax vs v.
Proof.
  revert v. induction vs as [| u vs IH]; intros v; simpl; [lra |].
  pose proof (IH (Qmax v u)). pose proof (Q.le_max_l v u). lra.
Qed.

Lemma fold_left_Qmax_upper (vs : list Q) (v : Q) :
  Forall (fun u => u <= fold_left Qmax vs v) vs.
Proof.
  revert v. induction vs as [| u vs IH]; intros v; simpl; constructor.
  - pose proof (fold_left_Qmax_ge vs (Qmax v u)).
    pose proof (Q.le_max_r v u). lra.
  - apply IH.
Qed.

(** [maximum] bounds every value it is taken over. *)
Lemma maximum_Ok (vs : list Q) (p : Q) :
  maximum vs = Ok p -> Forall (fun v => v <= p) vs.
Proof.
  destruct vs as [| v vs]; simpl; [discriminate |].
  intros H. injection H as <-. constructor.
  - apply fold_left_Qmax_ge.
  - apply fold_left_Qmax_upper.
Qed.

Lemma fold_left_Qmax_attained (vs : list Q) (v : Q) :
  exists x, (x = v \/ x ∈ vs) /\ x == fold_left Qmax vs v.
Proof.
  revert v. induction vs as [| u vs IH]; intros v; simpl.
  - exists v. split; [left; reflexivity | reflexivity].
  - destruct (IH (Qmax v u)) as (x & [-> | Hx] & Heq).
    + destruct (Q.max_spec v u) as [[_ Hm] | [_ Hm]].
      * exists u. split; [right; left |]. rewrite <- Heq, Hm. reflexivity.
      * exists v. split; [left; reflexivity |]. rewrite <- Heq, Hm.
        reflexivity.
    + exists x. split; [right; right; exact Hx | exact Heq].
Qed.

(** [maximum] is one of the values it is taken over. *)
Lemma maximum_attained (vs : list Q) (p : Q) :
  maximum vs = Ok p -> exists v, v ∈ vs /\ v == p.
Proof.
  destruct vs as [| v vs]; simpl; [discriminate |].
  intros H. injection H as <-.
  destruct (fold_left_Qmax_attained vs v) as (x & [-> | Hx] & Heq).
  - exists v. split; [left | exact Heq].
  - exists x. split; [right; exact Hx | exact Heq].
Qed.

(** The level files of a run that returns: level [n] holds, in station
    order, the rows of the stations, computed with the side ratio
    [(maxWidth - bottomWidth)/2/depth]. *)
Lemma run_level_files (opts : options) (lines : list sample) (z : Z)
    (w : world Cell) :
  run here opts lines = (Ok z, w) ->
  let vRes := ensureopt (vres opts) 1 in
  let endHeight := ensureopt (endheight opts) 100 in
  let depth := ensureopt (depth opts) 5 in
  let startHeight := ensureopt (startheight opts) 1000 in
  let chWidth := ensureopt (bottomwidth opts) 100 in
  let chMaxWidth := ensureopt (maxwidth opts) 300 in
  exists last maxH,
    Py.index lines (-1) = Ok last /\
    maximum (omap (read (Some (line_buffer here (chMaxWidth / 2)))
                     (terrain here)) (region here)) = Ok maxH /\
    let quo := (endHeight - startHeight) / along last in
    let vLevels := (Py.round ((maxH + vRes - endHeight) / vRes) + 2)%Z in
    let sideRatio := (chMaxWidth - chWidth) / 2 / depth in
    forall n,
      pascii w !! n
      = if decide (1 <= n < vLevels)%Z
        then Some (flat_map
                     (fun s => station_rows vRes endHeight startHeight chWidth
                                 chMaxWidth sideRatio vLevels quo s n) lines)
        else None.
Proof.
  intros H vRes endHeight depth startHeight chWidth chMaxWidth.
  destruct (run_Ok here opts lines z w H)
    as (sideRatio & last & peak & x & quo & db & Hside & Hlast & Hpeak & Hx
        & Hquo & Hdb & Hpascii & _).
  exists last, peak. split; [exact Hlast |]. split; [exact Hpeak |].
  apply div_Ok in Hx as [_ ->]. apply div_Ok in Hquo as [_ ->].
  destruct (Py.div (ensureopt (maxwidth opts) 300
                    - ensureopt (bottomwidth opts) 100) 2) as [h |] eqn:Eh;
    [| discriminate].
  apply div_Ok in Eh as [_ ->]. simpl in Hside.
  apply div_Ok in Hside as [_ ->].
  intros quo vLevels sideRatio n.
  destruct (assign_Ok _ _ _ _ _ _ _ _ _ _ _ _ Hdb) as [Hlook _].
  rewrite Hpascii, Hlook, level_table_db.
  fold vRes endHeight vLevels.
  destruct (decide (1 <= n < vLevels)%Z); reflexivity.
Qed.

End RunFacts.

(** C3, as the code has it.  With [maxH] the maximum elevation of the DTM
    within the corridor of half-width [maxWidth/2] around the path, a run
    that completes reports [vLevels = round((maxH + vRes - endHeight)/vRes)
    + 2] levels (the peak is raised by one [vRes] before the division), and
    the usable ordinals, the keys of the level table, are
    [1 .. vLevels-1]. *)
Theorem number_of_levels {Cell : Type} (here : site Cell) (opts : options)
    (lines : list sample) (z : Z) (w : world Cell) :
  run here opts lines = (Ok z, w) ->
  let vRes := ensureopt (vres opts) 1 in
  let endHeight := ensureopt (endheight opts) 100 in
  let chMaxWidth := ensureopt (maxwidth opts) 300 in
  exists maxH,
    maximum (omap (read (Some (line_buffer here (chMaxWidth / 2)))
                     (terrain here)) (region here)) = Ok maxH /\
    (forall c t, c ∈ region here ->
       line_buffer here (chMaxWidth / 2) c = true ->
       terrain here c = Some t -> t <= maxH) /\
    (exists c t, c ∈ region here /\
       line_buffer here (chMaxWidth / 2) c = true /\
       terrain here c = Some t /\ t == maxH) /\
    let vLevels := (Py.round ((maxH + vRes - endHeight) / vRes) + 2)%Z in
    NumberOfLevels vLevels ∈ says (trace w) /\
    forall n, is_Some (pascii w !! n) <-> (1 <= n < vLevels)%Z.
Proof.
  intros H vRes endHeight chMaxWidth.
  destruct (run_Ok here opts lines z w H)
    as (sideRatio & last & peak & x & quo & db & Hside & Hlast & Hpeak & Hx
        & Hquo & Hdb & Hpascii & Hmask & es & df & Hes & Hdf & Hesc & Hdfc
        & Hsays).
  exists peak. split; [exact Hpeak |]. split.
  { intros c t Hc Hin Ht.
    pose proof (maximum_Ok _ _ Hpeak) as Hall.
    rewrite Forall_forall in Hall. apply Hall.
    apply list_elem_of_omap. exists c. split; [exact Hc |].
    unfold read. unfold chMaxWidth in Hin. rewrite Hin. exact Ht. }
  split.
  { destruct (maximum_attained _ _ Hpeak) as (t & Ht & Heq).
    apply list_elem_of_omap in Ht as (c & Hc & Hread).
    unfold read in Hread. fold chMaxWidth in Hread.
    destruct (line_buffer here (chMaxWidth / 2) c) eqn:Hin; [| discriminate].
    exists c, t. auto. }
  apply div_Ok in Hx as [_ ->]. fold vRes endHeight in Hdb, Hsays |- *.
  split.
  { rewrite Hsays. do 3 right. left. }
  intros n. rewrite Hpascii.
  destruct (assign_Ok _ _ _ _ _ _ _ _ _ _ _ _ Hdb) as [Hlook _].
  rewrite Hlook, fmap_is_Some, level_table_db.
  destruct (decide (1 <= n < _)%Z) as [Hn | Hn].
  - split; [intros _; exact Hn | intros _; eauto].
  - split; [intros [? ?]; discriminate | intros Hn'; contradiction].
Qed.

Lemma number_of_levels_witness :
  exists w, run Transect.site93 Transect.usual Transect.three = (Ok 0%Z, w) /\
    exists maxH,
      maximum (omap (read (Some (line_buffer Transect.site93 (50 / 2)))
                       (terrain Transect.site93))
                 (region Transect.site93)) = Ok maxH /\
      NumberOfLevels (Py.round ((maxH + 1 - 90) / 1) + 2)
        ∈ says (trace w).
Proof.
  destruct (run Transect.site93 Transect.usual Transect.three)
    as [[z | e] w] eqn:E.
  - assert (Hz : z = 0%Z).
    { apply (f_equal fst) in E. vm_compute in E. congruence. }
    subst z. exists w. split; [reflexivity |].
    destruct (number_of_levels Transect.site93 Transect.usual Transect.three
                0%Z w E) as (maxH & H1 & _ & _ & H2 & _).
    exists maxH. split; [exact H1 | exact H2].
  - apply (f_equal fst) in E. vm_compute in E. discriminate.
Defined.

(** C3 as stated fails on its own scenario: with a terrain peak of 120,
    [endHeight = 90] and [vRes = 1] the run reports 33 levels and uses the
    ordinals [1 .. 32], where [round((120 - 90)/1) + 2 = 32]. *)
Lemma number_of_levels_scenario :
  fst (run Transect.site120 (Transect.command 100 90 7 10 50 1 2000)
         Transect.three) = Ok 0%Z /\
  maximum (omap (read (Some (line_buffer Transect.site120 (50 / 2)))
                   (terrain Transect.site120))
             (region Transect.site120)) = Ok 120 /\
  (Py.round ((120 - 90) / 1) + 2)%Z = 32%Z /\
  says (trace (snd (run Transect.site120
                      (Transect.command 100 90 7 10 50 1 2000)
                      Transect.three))) !! 3%nat
  = Some (NumberOfLevels 33) /\
  pascii (snd (run Transect.site120 (Transect.command 100 90 7 10 50 1 2000)
                 Transect.three)) !! 32%Z = Some [] /\
  pascii (snd (run Transect.site120 (Transect.command 100 90 7 10 50 1 2000)
                 Transect.three)) !! 33%Z = None.
Proof. vm_compute. repeat split; reflexivity. Qed.

(** ** The level of a station *)

Lemma rows_at_elem (vRes chWidth chMaxWidth sideRatio : Q) (vLevels : Z)
    (aLine : sample) (level n : Z) (e : entry) :
  e ∈ rows_at vRes chWidth chMaxWidth sideRatio vLevels aLine level n ->
  (n = level /\ e = row aLine (chWidth / 2)) \/
  ((level < n < vLevels)%Z /\
   buffer_width vRes chWidth sideRatio level n <= chMaxWidth / 2 /\
   e = row aLine (buffer_width vRes chWidth sideRatio level n)).
Proof.
  unfold rows_at. destruct (decide (n = level)) as [-> | Hne].
  - intros H. apply list_elem_of_singleton in H. left. auto.
  - destruct (bool_decide _) eqn:Eb; simpl.
    + destruct (Qle_bool _ _) eqn:Eq.
      * intros H. apply list_elem_of_singleton in H. right.
        apply bool_decide_eq_true in Eb. apply Qle_bool_iff in Eq. auto.
      * intros H. apply elem_of_nil in H. contradiction.
    + intros H. apply elem_of_nil in H. contradiction.
Qed.

(** C2, as the code has it.  In a run that completes, the level of every
    station is [round((ds - endHeight)/vRes + 1)], the 1 being added before
    rounding as line 314 has it; it lies in [1 .. vLevels-1], and the level
    file of that level holds the station's row of half-width
    [bottomWidth/2].  Nothing clamps the ordinal: a station whose ordinal
    lies outside [1 .. vLevels-1] is in no run that completes. *)
Theorem station_level_in_range {Cell : Type} (here : site Cell)
    (opts : options) (lines : list sample) (z : Z) (w : world Cell) :
  run here opts lines = (Ok z, w) ->
  let vRes := ensureopt (vres opts) 1 in
  let endHeight := ensureopt (endheight opts) 100 in
  let startHeight := ensureopt (startheight opts) 1000 in
  let chWidth := ensureopt (bottomwidth opts) 100 in
  let chMaxWidth := ensureopt (maxwidth opts) 300 in
  exists last maxH,
    Py.index lines (-1) = Ok last /\
    maximum (omap (read (Some (line_buffer here (chMaxWidth / 2)))
                     (terrain here)) (region here)) = Ok maxH /\
    let quo := (endHeight - startHeight) / along last in
    let vLevels := (Py.round ((maxH + vRes - endHeight) / vRes) + 2)%Z in
    forall s, s ∈ lines ->
      let ds := quo * along s + startHeight in
      let level := Py.round ((ds - endHeight) / vRes + 1) in
      (1 <= level <= vLevels - 1)%Z /\
      (exists es, pascii w !! level = Some es /\ row s (chWidth / 2) ∈ es).
Proof.
  intros H vRes endHeight startHeight chWidth chMaxWidth.
  destruct (run_Ok here opts lines z w H)
    as (sideRatio & last & peak & x & quo & db & Hside & Hlast & Hpeak & Hx
        & Hquo & Hdb & Hpascii & Hmask & es & df & Hes & Hdf & Hesc & Hdfc
        & Hsays).
  exists last, peak. split; [exact Hlast |]. split; [exact Hpeak |].
  apply div_Ok in Hx as [_ ->]. apply div_Ok in Hquo as [_ ->].
  fold vRes endHeight startHeight chWidth chMaxWidth in Hdb |- *.
  intros quo vLevels s Hs ds level.
  fold quo vLevels in Hdb.
  destruct (assign_Ok _ _ _ _ _ _ _ _ _ _ _ _ Hdb) as [Hlook Hall].
  rewrite Forall_forall in Hall.
  destruct (Hall s Hs) as (level' & Hown & _ & Hsome).
  unfold own_level in Hown.
  destruct (Py.div _ vRes) as [q |] eqn:Eq; [| discriminate].
  apply div_Ok in Eq as [_ ->]. simpl in Hown. injection Hown as <-.
  fold ds level in Hsome.
  rewrite level_table_db in Hsome.
  destruct (decide (1 <= level < vLevels)%Z) as [Hrange | Hrange];
    [| destruct Hsome; discriminate].
  split; [lia |].
  rewrite Hpascii, Hlook, level_table_db, decide_True by exact Hrange.
  simpl. eexists. split; [reflexivity |].
  apply list_elem_of_In, in_flat_map. exists s.
  split; [apply list_elem_of_In; exact Hs |].
  unfold station_rows, own_level.
  rewrite (div_nonzero _ vRes).
  - simpl. fold ds level. unfold rows_at.
    rewrite decide_True by reflexivity. left. reflexivity.
  - intros Hv. apply div_zero with (x := quo * along s + startHeight - endHeight)
      in Hv.
    destruct (Hall s Hs) as (l2 & Hown2 & _). unfold own_level in Hown2.
    rewrite Hv in Hown2. discriminate.
Qed.

Lemma station_level_in_range_witness :
  exists w, run Transect.site93 Transect.usual Transect.three = (Ok 0%Z, w) /\
    exists last maxH,
      Py.index Transect.three (-1) = Ok last /\
      maximum (omap (read (Some (line_buffer Transect.site93 (50 / 2)))
                       (terrain Transect.site93))
                 (region Transect.site93)) = Ok maxH /\
      forall s, s ∈ Transect.three ->
        (1 <= Py.round (((90 - 92) / along last * along s + 92 - 90) / 1 + 1)
         <= Py.round ((maxH + 1 - 90) / 1) + 2 - 1)%Z.
Proof.
  destruct (run Transect.site93 Transect.usual Transect.three)
    as [[z | e] w] eqn:E.
  - assert (Hz : z = 0%Z).
    { apply (f_equal fst) in E. vm_compute in E. congruence. }
    subst z. exists w. split; [reflexivity |].
    destruct (station_level_in_range Transect.site93 Transect.usual
                Transect.three 0%Z w E) as (last & maxH & H1 & H2 & H3).
    exists last, maxH. split; [exact H1 |]. split; [exact H2 |].
    intros s Hs. apply (H3 s Hs).
  - apply (f_equal fst) in E. vm_compute in E. discriminate.
Defined.

(** C2 as stated fails: no clamping takes place.  With [startHeight = 80]
    below [endHeight = 90], the first station has level
    [round((80 - 90)/1 + 1) = -9]; the clamped value would be 1, but the run
    stops with a [KeyError] and no level receives the station's row. *)
Lemma station_level_not_clamped :
  own_level 1 90 80 ((90 - 80) / 100)
    {| sx := 0; sy := 0; scat := 1; along := 0 |} = Ok (-9)%Z /\
  spec_own_level 1 90 80 33 = 1%Z /\
  fst (run Transect.site120 (Transect.command 80 90 7 10 50 1 2000)
         Transect.three) = Raise KeyError /\
  pascii (snd (run Transect.site120 (Transect.command 80 90 7 10 50 1 2000)
                 Transect.three)) !! 1%Z = None.
Proof. vm_compute. repeat split; reflexivity. Qed.

(** ** The rows of a station *)

(** C4, as the code has it.  A station of level [level] adds to level [n] the
    rows [rows_at .. level n]: one row of half-width [bottomWidth/2] at its
    own level, nothing below it, and above it at most one row, of half-width
    [bottomWidth/2 + (n - level)*vRes*sideRatio], kept only when it does not
    exceed [maxWidth/2].  The own-level row is not tested against the cap, so
    it stays within [maxWidth/2] when [bottomWidth <= maxWidth]; the
    half-widths are non-decreasing in the level when
    [vRes*sideRatio >= 0]. *)
Theorem station_half_widths (vRes endHeight startHeight chWidth chMaxWidth
    sideRatio : Q) (vLevels : Z) (hSeries : list Z) (quo : Q)
    (db db' : gmap Z (list entry)) (aLine : sample) :
  station vRes endHeight startHeight chWidth chMaxWidth sideRatio vLevels
    hSeries quo db aLine = Ok db' ->
  exists level,
    own_level vRes endHeight startHeight quo aLine = Ok level /\
    let added := rows_at vRes chWidth chMaxWidth sideRatio vLevels aLine level in
    (forall n old, db !! n = Some old -> db' !! n = Some (old ++ added n)) /\
    added level = [row aLine (chWidth / 2)] /\
    (forall n, (n < level)%Z -> added n = []) /\
    (forall n e, e ∈ added n ->
       e = row aLine (width e) /\
       width e == chWidth / 2 + inject_Z (n - level) * vRes * sideRatio) /\
    (forall n e, e ∈ added n -> (level < n)%Z -> width e <= chMaxWidth / 2) /\
    (chWidth <= chMaxWidth ->
     forall n e, e ∈ added n -> width e <= chMaxWidth / 2) /\
    (0 <= vRes * sideRatio ->
     forall n n' e e', (n <= n')%Z -> e ∈ added n -> e' ∈ added n' ->
       width e <= width e').
Proof.
  intros H.
  apply station_Ok in H as (level & Hown & _ & _ & Hlook).
  exists level. split; [exact Hown |]. intros added.
  assert (Hform : forall n e, e ∈ added n ->
            e = row aLine (width e) /\
            width e == chWidth / 2 + inject_Z (n - level) * vRes * sideRatio).
  { intros n e He. apply rows_at_elem in He as [[-> ->] | (_ & _ & ->)].
    - split; [reflexivity |].
      change (chWidth / 2
              == chWidth / 2 + inject_Z (level - level) * vRes * sideRatio).
      rewrite Z.sub_diag. change (inject_Z 0) with 0. lra.
    - split; [reflexivity |].
      change (buffer_width vRes chWidth sideRatio level n
              == chWidth / 2 + inject_Z (n - level) * vRes * sideRatio).
      unfold buffer_width. lra. }
  split.
  { intros n old Hold. rewrite Hlook, Hold. reflexivity. }
  split.
  { subst added. unfold rows_at. rewrite decide_True by reflexivity.
    reflexivity. }
  split.
  { intros n Hn. subst added. unfold rows_at.
    rewrite decide_False by lia.
    rewrite bool_decide_eq_false_2 by lia. reflexivity. }
  split; [exact Hform |].
  split.
  { intros n e He Hn. apply rows_at_elem in He as [[-> _] | (_ & Hle & ->)].
    - lia.
    - exact Hle. }
  split.
  { intros Hcap n e He. apply rows_at_elem in He as [[_ ->] | (_ & Hle & ->)].
    - change (chWidth / 2 <= chMaxWidth / 2).
      apply Qmult_le_compat_r; [exact Hcap | discriminate].
    - exact Hle. }
  intros Hslope n n' e e' Hnn He He'.
  destruct (Hform n e He) as [_ Hw]. destruct (Hform n' e' He') as [_ Hw'].
  rewrite Hw, Hw'.
  assert (Hinj : inject_Z (n - level) <= inject_Z (n' - level))
    by (rewrite <- Zle_Qle; lia).
  nra.
Qed.

Lemma station_half_widths_witness :
  exists db',
    station 1 90 92 10 50 (40 # 14) 6 (fst (level_table 1 90 6))
      ((90 - 92) / 100) (snd (level_table 1 90 6))
      {| sx := 0; sy := 0; scat := 1; along := 0 |} = Ok db' /\
    exists level,
      own_level 1 90 92 ((90 - 92) / 100)
        {| sx := 0; sy := 0; scat := 1; along := 0 |} = Ok level /\
      rows_at 1 10 50 (40 # 14) 6
        {| sx := 0; sy := 0; scat := 1; along := 0 |} level level
      = [row {| sx := 0; sy := 0; scat := 1; along := 0 |} (10 / 2)].
Proof.
  destruct (station 1 90 92 10 50 (40 # 14) 6 (fst (level_table 1 90 6))
              ((90 - 92) / 100) (snd (level_table 1 90 6))
              {| sx := 0; sy := 0; scat := 1; along := 0 |})
    as [db' | e] eqn:E.
  - exists db'. split; [reflexivity |].
    destruct (station_half_widths _ _ _ _ _ _ _ _ _ _ _ _ E)
      as (level & H1 & _ & H2 & _).
    exists level. split; [exact H1 | exact H2].
  - vm_compute in E. discriminate.
Defined.

(** C4 as stated fails when [bottomWidth > maxWidth]: with widths 60 and 50
    the station at distance 100 has level 1 and enters it with half-width
    30, above [maxWidth/2 = 25]; its rows at levels 8 and 9 have half-widths
    25 and 170/7, so the half-width decreases with the level. *)
Lemma station_half_widths_uncapped :
  fst (run Transect.site100 (Transect.command 92 90 7 60 50 1 2000)
         (Transect.stations [0; 100]%Z)) = Ok 0%Z /\
  map (fun e => (Qred (ex e), Qred (width e)))
      (rows (pascii (snd (run Transect.site100
                            (Transect.command 92 90 7 60 50 1 2000)
                            (Transect.stations [0; 100]%Z)))) 1)
  = [(100, 30)] /\
  ~ 30 <= 50 / 2 /\
  map (fun e => (Qred (ex e), Qred (width e)))
      (rows (pascii (snd (run Transect.site100
                            (Transect.command 92 90 7 60 50 1 2000)
                            (Transect.stations [0; 100]%Z)))) 8)
  = [(100, 25)] /\
  map (fun e => (Qred (ex e), Qred (width e)))
      (rows (pascii (snd (run Transect.site100
                            (Transect.command 92 90 7 60 50 1 2000)
                            (Transect.stations [0; 100]%Z)))) 9)
  = [(100, 170 # 7)].
Proof.
  split; [vm_compute; reflexivity |].
  split; [vm_compute; reflexivity |].
  split; [intros H; vm_compute in H; apply H; reflexivity |].
  split; vm_compute; reflexivity.
Qed.

(** ** The side ratio *)

(** C5.  The [sideratio] answer of the command line is never read: two runs
    that differ only in it return the same result and leave the same session
    (same trace, level files and raster maps).  The rows of the level files
    are computed with the side ratio [(maxWidth - bottomWidth)/2/depth]; for
    widths 10 and 50 and depth 7 it is [20/7], about 2.857, and two levels
    above a station's own the half-width is [5 + 2*vRes*20/7 = 75/7], about
    10.71, for [vRes = 1], as the level files of a run with these answers
    show. *)
Theorem sideratio_option_ignored :
  (forall (Cell : Type) (here : site Cell) (opts : options) (v : option Q)
          (lines : list sample),
     run here (with_sideratio v opts) lines = run here opts lines) /\
  (forall (Cell : Type) (here : site Cell) (opts : options)
          (lines : list sample) (z : Z) (w : world Cell),
     run here opts lines = (Ok z, w) ->
     let vRes := ensureopt (vres opts) 1 in
     let endHeight := ensureopt (endheight opts) 100 in
     let depth := ensureopt (depth opts) 5 in
     let startHeight := ensureopt (startheight opts) 1000 in
     let chWidth := ensureopt (bottomwidth opts) 100 in
     let chMaxWidth := ensureopt (maxwidth opts) 300 in
     exists last maxH,
       Py.index lines (-1) = Ok last /\
       maximum (omap (read (Some (line_buffer here (chMaxWidth / 2)))
                        (terrain here)) (region here)) = Ok maxH /\
       let quo := (endHeight - startHeight) / along last in
       let vLevels := (Py.round ((maxH + vRes - endHeight) / vRes) + 2)%Z in
       let sideRatio := (chMaxWidth - chWidth) / 2 / depth in
       forall n, (1 <= n < vLevels)%Z ->
         pascii w !! n
         = Some (flat_map
                   (fun s => station_rows vRes endHeight startHeight chWidth
                               chMaxWidth sideRatio vLevels quo s n) lines)) /\
  (exists q,
     (x ← Py.div (50 - 10) 2; Py.div x 7) = Ok q /\
     q == (50 - 10) / 2 / 7 /\
     (2857 # 1000) <= q /\ q < (2858 # 1000) /\
     forall level,
       buffer_width 1 10 q level (level + 2) == 5 + 2 * 1 * q /\
       (1071 # 100) <= buffer_width 1 10 q level (level + 2) /\
       buffer_width 1 10 q level (level + 2) < (1072 # 100)) /\
  (own_level 1 90 92 ((90 - 92) / 100)
     {| sx := 0; sy := 0; scat := 1; along := 0 |} = Ok 3%Z /\
   map (fun e => (Qred (ex e), Qred (width e)))
     (rows (pascii (snd (run Transect.site93
                           (with_sideratio (Some 99) Transect.usual)
                           Transect.three))) 5)
   = [(0, 75 # 7); (50, 95 # 7); (100, 115 # 7)]).
Proof.
  split; [| split; [| split]].
  - intros Cell here opts v lines. destruct opts. reflexivity.
  - intros Cell here opts lines z w H
      vRes endHeight depth startHeight chWidth chMaxWidth.
    destruct (run_level_files here opts lines z w H)
      as (last & maxH & Hlast & Hmax & Hfiles).
    exists last, maxH. split; [exact Hlast |]. split; [exact Hmax |].
    intros quo vLevels sideRatio n Hn.
    rewrite (Hfiles n). apply decide_True. exact Hn.
  - exists (40 # 14). split; [reflexivity |].
    split; [reflexivity |]. split; [discriminate |]. split; [reflexivity |].
    intros level. unfold buffer_width.
    replace (level + 2 - level)%Z with 2%Z by lia.
    split; [reflexivity |]. split; [discriminate | reflexivity].
  - split; vm_compute; reflexivity.
Qed.

Lemma sideratio_option_ignored_witness :
  exists w,
    run Transect.site93 (with_sideratio (Some 99) Transect.usual)
      Transect.three = (Ok 0%Z, w) /\
    exists last maxH,
      Py.index Transect.three (-1) = Ok last /\
      maximum (omap (read (Some (line_buffer Transect.site93 (50 / 2)))
                       (terrain Transect.site93))
                 (region Transect.site93)) = Ok maxH /\
      ((1 <= 5 < Py.round ((maxH + 1 - 90) / 1) + 2)%Z ->
       pascii w !! 5%Z
       = Some (flat_map
                 (fun s => station_rows 1 90 92 10 50 ((50 - 10) / 2 / 7)
                             (Py.round ((maxH + 1 - 90) / 1) + 2)
                             ((90 - 92) / along last) s 5)
                 Transect.three)).
Proof.
  destruct (run Transect.site93 (with_sideratio (Some 99) Transect.usual)
              Transect.three) as [[z | e] w] eqn:E.
  - assert (Hz : z = 0%Z).
    { apply (f_equal fst) in E. vm_compute in E. congruence. }
    subst z. exists w. split; [reflexivity |].
    destruct sideratio_option_ignored as (_ & Hfiles & _).
    destruct (Hfiles _ Transect.site93
                (with_sideratio (Some 99) Transect.usual) Transect.three
                0%Z w E) as (last & maxH & H1 & H2 & H3).
    exists last, maxH. split; [exact H1 |]. split; [exact H2 |].
    exact (H3 5%Z).
  - apply (f_equal fst) in E. vm_compute in E. discriminate.
Defined.

(** ** The envelope *)

Section EnvelopeFacts.

Lemma StronglySorted_weaken {A} (R R' : A -> A -> Prop) (l : list A) :
  (forall a b, R a b -> R' a b) -> StronglySorted R l -> StronglySorted R' l.
Proof.
  intros HR. induction 1 as [| a l Hl IH Hall]; constructor.
  - exact IH.
  - eapply Forall_impl; [exact Hall |]. intros b. apply HR.
Qed.

Lemma StronglySorted_filter {A} (R : A -> A -> Prop) (f : A -> bool)
    (l : list A) :
  StronglySorted R l -> StronglySorted R (List.filter f l).
Proof.
  induction 1 as [| a l Hl IH Hall]; simpl; [constructor |].
  destruct (f a); [| exact IH]. constructor; [exact IH |].
  rewrite Forall_forall in Hall |- *. intros b Hb.
  apply list_elem_of_In, filter_In in Hb as [Hb _].
  apply Hall, list_elem_of_In, Hb.
Qed.

Lemma StronglySorted_seqZ (k : nat) :
  forall a, StronglySorted Z.lt (seqZ a (Z.of_nat k)).
Proof.
  induction k as [| k IH]; intros a.
  - rewrite seqZ_nil by lia. constructor.
  - rewrite seqZ_cons by lia.
    replace (Z.pred (Z.of_nat (S k))) with (Z.of_nat k) by lia.
    constructor; [apply IH |].
    rewrite Forall_forall. intros b Hb. apply elem_of_seqZ in Hb. lia.
Qed.

Lemma StronglySorted_range (a b : Z) : StronglySorted Z.lt (Py.range a b).
Proof.
  unfold Py.range. destruct (Z_le_gt_dec (b - a) 0) as [H | H].
  - rewrite seqZ_nil by lia. constructor.
  - rewrite <- (Z2Nat.id (b - a)) by lia. apply StronglySorted_seqZ.
Qed.

(** The processed levels come in increasing order. *)
Lemma applied_sorted (db : gmap Z (list entry)) (vLevels limit : Z) :
  StronglySorted Z.lt (applied db vLevels limit).
Proof. apply StronglySorted_filter, StronglySorted_range. Qed.

Lemma applied_elem (db : gmap Z (list entry)) (vLevels limit n : Z) :
  n ∈ applied db vLevels limit <->
  (1 <= n < Z.min vLevels limit)%Z /\ has_rows db n = true.
Proof.
  unfold applied. rewrite list_elem_of_In, filter_In, <- list_elem_of_In.
  rewrite elem_of_range. reflexivity.
Qed.

Lemma lower_null (f : option Q) : lower f None = None.
Proof. destruct f; reflexivity. Qed.

Lemma foldl_lower_null {X} (F : X -> option Q) (l : list X) :
  foldl (fun s n => lower (F n) s) None l = None.
Proof.
  induction l as [| n l IH]; simpl; [reflexivity |].
  rewrite lower_null. exact IH.
Qed.

(** Merging level maps over a terrain value [t] leaves the smallest of [t]
    and the values of the maps that cover the cell. *)
Lemma foldl_lower_min (cov : Z -> bool) (elev : Z -> Q) (levels : list Z) :
  forall t,
    exists e,
      foldl (fun s n => lower (if cov n then Some (elev n) else None) s)
            (Some t) levels = Some e /\
      e <= t /\
      (forall n, n ∈ levels -> cov n = true -> e <= elev n) /\
      (e = t \/ exists n, n ∈ levels /\ cov n = true /\ e = elev n).
Proof.
  induction levels as [| k l IH]; intros t; simpl.
  - exists t. split; [reflexivity |]. split; [lra |]. split; [| left; reflexivity].
    intros n Hn. apply elem_of_nil in Hn. contradiction.
  - destruct (cov k) eqn:Ek; simpl.
    + destruct (Qle_bool t (elev k)) eqn:Eq.
      * apply Qle_bool_iff in Eq.
        destruct (IH t) as (e & He & Hle & Hcov & Hatt).
        exists e. split; [exact He |]. split; [exact Hle |]. split.
        -- intros n Hn Hc. apply elem_of_cons in Hn as [-> | Hn];
             [lra | apply Hcov; assumption].
        -- destruct Hatt as [-> | (n & Hn & Hc & ->)]; [left; reflexivity |].
           right. exists n. split; [right; exact Hn | auto].
      * assert (Hlt : elev k < t).
        { apply Qnot_le_lt. intros Hle. apply Qle_bool_iff in Hle.
          congruence. }
        destruct (IH (elev k)) as (e & He & Hle & Hcov & Hatt).
        exists e. split; [exact He |]. split; [lra |]. split.
        -- intros n Hn Hc. apply elem_of_cons in Hn as [-> | Hn];
             [exact Hle | apply Hcov; assumption].
        -- right. destruct Hatt as [-> | (n & Hn & Hc & ->)].
           ++ exists k. split; [left | auto].
           ++ exists n. split; [right; exact Hn | auto].
    + destruct (IH t) as (e & He & Hle & Hcov & Hatt).
      exists e. split; [exact He |]. split; [exact Hle |]. split.
      * intros n Hn Hc. apply elem_of_cons in Hn as [-> | Hn];
          [congruence | apply Hcov; assumption].
      * destruct Hatt as [-> | (n & Hn & Hc & ->)]; [left; reflexivity |].
        right. exists n. split; [right; exact Hn | auto].
Qed.

(** Merging level maps whose values do not decrease along the list leaves,
    over a terrain value [t], the smaller of [t] and the value of the first
    map that covers the cell. *)
Lemma foldl_lower_first (cov : Z -> bool) (elev : Z -> Q) (levels : list Z) :
  StronglySorted (fun a b => elev a <= elev b) levels ->
  forall t,
    exists e,
      foldl (fun s n => lower (if cov n then Some (elev n) else None) s)
            (Some t) levels = Some e /\
      e <= t /\
      match List.find cov levels with
      | Some n => e == Qmin t (elev n)
      | None => e = t
      end.
Proof.
  induction 1 as [| k l Hl IH Hall]; intros t; simpl.
  - exists t. split; [reflexivity |]. split; [lra | reflexivity].
  - destruct (cov k) eqn:Ek; simpl.
    + set (t1 := if Qle_bool t (elev k) then t else elev k).
      assert (Ht1 : t1 <= t /\ t1 <= elev k /\ t1 == Qmin t (elev k)).
      { subst t1. destruct (Qle_bool t (elev k)) eqn:E.
        - apply Qle_bool_iff in E. split; [lra |]. split; [exact E |].
          symmetry. apply Q.min_l. exact E.
        - assert (Hlt : elev k < t).
          { apply Qnot_le_lt. intros Hle. apply Qle_bool_iff in Hle.
            congruence. }
          split; [lra |]. split; [lra |].
          symmetry. apply Q.min_r. lra. }
      destruct Ht1 as (H1 & H2 & H3).
      destruct (IH t1) as (e & He & Hle & Hfind).
      exists e. split; [exact He |]. split; [lra |].
      destruct (List.find cov l) as [n |] eqn:En.
      * apply find_some in En as [Hn _].
        rewrite Forall_forall in Hall.
        pose proof (Hall n (proj2 (list_elem_of_In _ _) Hn)) as Hkn.
        rewrite Hfind, Q.min_l by lra. exact H3.
      * subst e. exact H3.
    + apply IH.
Qed.

End EnvelopeFacts.

(** ** What a run leaves behind *)

Section OutputFacts.

Context {Cell : Type}.
Variable here : site Cell.

Lemma bind_run {A B} (m : M A) (f : A -> M B) (w w1 : world Cell) (a : A) :
  m w = (Ok a, w1) -> (m ≫= f) w = f a w1.
Proof. intros H. unfold mbind, M_bind. rewrite H. reflexivity. Qed.

Lemma bind_raise {A B} (m : M A) (f : A -> M B) (w w1 : world Cell)
    (e : exn) :
  m w = (Raise e, w1) -> (m ≫= f) w = (Raise e, w1).
Proof. intros H. unfold mbind, M_bind. rewrite H. reflexivity. Qed.

Lemma applying_map (levels : list Z) : applying (map Applying levels) = levels.
Proof.
  unfold applying. induction levels as [| n l IH]; [reflexivity |].
  csimpl. rewrite IH. reflexivity.
Qed.

Lemma has_rows_is_Some (db : gmap Z (list entry)) (n : Z) :
  has_rows db n = true -> is_Some (db !! n).
Proof. unfold has_rows. destruct (db !! n); [eauto | discriminate]. Qed.

(** The outputs of a run that returns. *)
Lemma run_outputs (opts : options) (lines : list sample) (z : Z)
    (w : world Cell) :
  run here opts lines = (Ok z, w) ->
  let vRes := ensureopt (vres opts) 1 in
  let endHeight := ensureopt (endheight opts) 100 in
  let limitRunLayers := ensureopt (limitrunlayers opts) 2000%Z in
  exists vLevels es df,
    (forall n, is_Some (pascii w !! n) <-> (1 <= n < vLevels)%Z) /\
    applying (says (trace w)) = applied (pascii w) vLevels limitRunLayers /\
    map label (says (trace w))
    = ["Path length: "; "Profile: "; "Maximum height: "; "Number of levels: ";
       "Start height: "; "End height: ";
       "Slope ratio (in meters / meter): "]%string
      ++ map (fun _ => "Applying: "%string) (applying (says (trace w)))
      ++ ["Calculating volume difference"; "Path: "; "M3: ";
          "Limestone tons: "; "Kt limestone: "; "Liebherr T 282B: ";
          "Visonta year "]%string /\
    rast w Dtm = Some es /\
    rast w Diff = Some df /\
    (forall c,
       es c = fill here (sweep here vRes endHeight (pascii w)
                           (applying (says (trace w))) c) c) /\
    (forall c, df c = difference here (es c) c).
Proof.
  intros H vRes endHeight limitRunLayers.
  destruct (run_Ok here opts lines z w H)
    as (sideRatio & last & peak & x & quo & db & Hside & Hlast & Hpeak & Hx
        & Hquo & Hdb & Hpascii & Hmask & es & df & Hes & Hdf & Hesc & Hdfc
        & Hsays).
  fold vRes endHeight limitRunLayers in Hdb, Hsays, Hesc.
  assert (Happ : applying (says (trace w))
                 = applied db (Py.round x + 2) limitRunLayers).
  { rewrite Hsays. unfold applying. rewrite !omap_app.
    change (omap _ (map Applying ?l)) with (applying (map Applying l)).
    rewrite applying_map. simpl. apply app_nil_r. }
  exists (Py.round x + 2)%Z, es, df.
  split.
  { intros n. rewrite Hpascii.
    destruct (assign_Ok _ _ _ _ _ _ _ _ _ _ _ _ Hdb) as [Hlook _].
    rewrite Hlook, fmap_is_Some, level_table_db.
    destruct (decide (1 <= n < _)%Z) as [Hn | Hn].
    - split; [intros _; exact Hn | intros _; eauto].
    - split; [intros [? ?]; discriminate | intros Hn'; contradiction]. }
  split; [rewrite Hpascii; exact Happ |].
  split.
  { rewrite Happ, Hsays, !map_app, !map_map. reflexivity. }
  split; [exact Hes |]. split; [exact Hdf |].
  split; [| exact Hdfc].
  intros c. rewrite Hesc, Hpascii, Happ. reflexivity.
Qed.

Lemma sweep_null (vRes endHeight : Q) (db : gmap Z (list entry))
    (levels : list Z) (c : Cell) :
  terrain here c = None -> sweep here vRes endHeight db levels c = None.
Proof. intros H. unfold sweep. rewrite H. apply foldl_lower_null. Qed.

Lemma sweep_envelope (vRes endHeight : Q) (db : gmap Z (list entry))
    (levels : list Z) (c : Cell) (t : Q) :
  0 <= vRes ->
  StronglySorted Z.lt levels ->
  terrain here c = Some t ->
  exists e,
    sweep here vRes endHeight db levels c = Some e /\
    e <= t /\
    match lowest_cover here db levels c with
    | Some n => e == Qmin t (inject_Z (elevation vRes endHeight n))
    | None => e = t
    end.
Proof.
  intros Hv Hsorted Ht. unfold sweep, lowest_cover. rewrite Ht.
  apply (foldl_lower_first (fun n => footprint here db n c)
           (fun n => inject_Z (elevation vRes endHeight n))).
  eapply StronglySorted_weaken; [| exact Hsorted].
  intros a b Hab. simpl. rewrite <- Zle_Qle.
  apply elevation_mono; [exact Hv | lia].
Qed.

(** Whatever the order of the elevations, the sweep leaves in a cell the
    smallest of the terrain value and the values of the level maps covering
    it. *)
Lemma sweep_min (vRes endHeight : Q) (db : gmap Z (list entry))
    (levels : list Z) (c : Cell) (t : Q) :
  terrain here c = Some t ->
  exists e,
    sweep here vRes endHeight db levels c = Some e /\
    e <= t /\
    (forall n, n ∈ levels -> footprint here db n c = true ->
       e <= inject_Z (elevation vRes endHeight n)) /\
    (e = t \/
     exists n, n ∈ levels /\ footprint here db n c = true /\
       e = inject_Z (elevation vRes endHeight n)).
Proof.
  intros Ht. unfold sweep. rewrite Ht.
  apply (foldl_lower_min (fun n => footprint here db n c)
           (fun n => inject_Z (elevation vRes endHeight n))).
Qed.

End OutputFacts.

(** ** The excavated surface *)

(** C1, as the code has it.  In every run that completes: the levels merged
    into the result are the level ordinals below the cap that hold rows, in
    increasing order; in every cell the result is null where the terrain is
    null, and otherwise it does not exceed the terrain value [T], it is [T]
    when no merged level map covers the cell, and when one does it is the
    smallest of [T] and the elevations of the merged level maps covering the
    cell.  For [vRes >= 0] that is [min(T, elevation of the lowest-ordinal
    merged level whose level map covers the cell)] -- that elevation itself
    whenever it does not exceed [T]. *)
Theorem excavated_surface_envelope {Cell : Type} (here : site Cell)
    (opts : options) (lines : list sample) (z : Z) (w : world Cell) :
  run here opts lines = (Ok z, w) ->
  let vRes := ensureopt (vres opts) 1 in
  let endHeight := ensureopt (endheight opts) 100 in
  let limitRunLayers := ensureopt (limitrunlayers opts) 2000%Z in
  let levels := applying (says (trace w)) in
  (forall n, n ∈ levels <->
     (1 <= n < limitRunLayers)%Z /\ has_rows (pascii w) n = true) /\
  StronglySorted Z.lt levels /\
  exists es,
    rast w Dtm = Some es /\
    forall c,
      match terrain here c with
      | None => es c = None
      | Some t =>
          exists e,
            es c = Some e /\ e <= t /\
            (forall n, n ∈ levels -> footprint here (pascii w) n c = true ->
               e <= inject_Z (elevation vRes endHeight n)) /\
            (e = t \/
             exists n, n ∈ levels /\ footprint here (pascii w) n c = true /\
               e = inject_Z (elevation vRes endHeight n)) /\
            match lowest_cover here (pascii w) levels c with
            | Some n =>
                0 <= vRes ->
                e == Qmin t (inject_Z (elevation vRes endHeight n))
            | None => e = t
            end
      end.
Proof.
  intros H vRes endHeight limitRunLayers levels.
  destruct (run_outputs here opts lines z w H)
    as (vLevels & es & df & Hkeys & Happ & _ & Hes & _ & Hesc & _).
  fold vRes endHeight limitRunLayers levels in Happ, Hesc.
  split.
  { intros n. rewrite Happ, applied_elem. split.
    - intros [Hn Hrows]. split; [lia | exact Hrows].
    - intros [Hn Hrows]. split; [| exact Hrows].
      apply has_rows_is_Some, Hkeys in Hrows. lia. }
  split; [rewrite Happ; apply applied_sorted |].
  exists es. split; [exact Hes |].
  intros c. rewrite Hesc.
  destruct (terrain here c) as [t |] eqn:Ht.
  - destruct (sweep_min here vRes endHeight (pascii w) levels c t Ht)
      as (e & He & Hle & Hcov & Hatt).
    exists e. rewrite He. split; [reflexivity |]. split; [exact Hle |].
    split; [exact Hcov |]. split; [exact Hatt |].
    destruct (lowest_cover here (pascii w) levels c) as [n |] eqn:El.
    + intros Hv.
      destruct (sweep_envelope here vRes endHeight (pascii w) levels c t Hv)
        as (e' & He' & _ & Hlow);
        [rewrite Happ; apply applied_sorted | exact Ht |].
      rewrite He in He'. injection He' as <-.
      rewrite El in Hlow. exact Hlow.
    + destruct Hatt as [Heq | (n & Hn & Hcn & _)]; [exact Heq |].
      unfold lowest_cover in El.
      apply list_elem_of_In in Hn.
      pose proof (find_none _ _ El n Hn) as Hf. cbv beta in Hf. congruence.
  - rewrite sweep_null by exact Ht. unfold fill. exact Ht.
Qed.

Lemma excavated_surface_envelope_witness :
  exists w, run Transect.site93 Transect.usual Transect.three = (Ok 0%Z, w) /\
    exists es, rast w Dtm = Some es /\
      exists e,
        es (0, 0)%Z = Some e /\ e <= 93 /\
        match lowest_cover Transect.site93 (pascii w)
                (applying (says (trace w))) (0, 0)%Z with
        | Some n => 0 <= 1 -> e == Qmin 93 (inject_Z (elevation 1 90 n))
        | None => e = 93
        end.
Proof.
  destruct (run Transect.site93 Transect.usual Transect.three)
    as [[z | e] w] eqn:E.
  - assert (Hz : z = 0%Z).
    { apply (f_equal fst) in E. vm_compute in E. congruence. }
    subst z. exists w. split; [reflexivity |].
    destruct (excavated_surface_envelope Transect.site93 Transect.usual
                Transect.three 0%Z w E) as (_ & _ & es & H1 & H2).
    exists es. split; [exact H1 |].
    destruct (H2 (0, 0)%Z) as (e & He & Hle & _ & _ & Hlow).
    exists e. split; [exact He |]. split; [exact Hle | exact Hlow].
  - apply (f_equal fst) in E. vm_compute in E. discriminate.
Defined.

(** C1 as stated fails where the terrain lies below the trench: over a pit of
    elevation 80 the lowest level covering the cell is level 3, of elevation
    92, and the result keeps 80. *)
Lemma excavated_surface_keeps_lower_terrain :
  fst (run Transect.site_pit Transect.usual Transect.three) = Ok 0%Z /\
  terrain Transect.site_pit (0, 0)%Z = Some 80 /\
  lowest_cover Transect.site_pit
    (pascii (snd (run Transect.site_pit Transect.usual Transect.three)))
    (applying (says (trace (snd (run Transect.site_pit Transect.usual
                                   Transect.three)))))
    (0, 0)%Z = Some 3%Z /\
  elevation 1 90 3 = 92%Z /\
  cell_value (snd (run Transect.site_pit Transect.usual Transect.three))
    Dtm (0, 0)%Z = Some 80.
Proof. vm_compute. repeat split; reflexivity. Qed.

(** ** The 200 buffer *)

(** C10, as the code has it.  The level maps are rasterised (lines 337-346)
    and the difference map is computed (lines 371-372) while a MASK of the
    constant distance 200 around the path is in force, whatever [maxWidth]
    is; the sweep (lines 353-361) runs after the MASK is removed.  The
    difference map is therefore null (not 0) in every cell outside that
    buffer, and is [T - result] inside it.  The MASK does not confine the
    result: in every cell, within the buffer or not, the result is the
    terrain where no merged level map covers the cell, and it lies at or
    below the elevation of every merged level map that covers the cell. *)
Theorem difference_under_mask {Cell : Type} (here : site Cell)
    (opts : options) (lines : list sample) (z : Z) (w : world Cell) :
  run here opts lines = (Ok z, w) ->
  let vRes := ensureopt (vres opts) 1 in
  let endHeight := ensureopt (endheight opts) 100 in
  let levels := applying (says (trace w)) in
  exists es df,
    rast w Dtm = Some es /\
    rast w Diff = Some df /\
    (forall c, line_buffer here 200 c = false -> df c = None) /\
    (forall c t e,
       line_buffer here 200 c = true ->
       terrain here c = Some t -> es c = Some e -> df c = Some (t - e)) /\
    (forall c,
       (forall n, n ∈ levels -> footprint here (pascii w) n c = false) ->
       es c = terrain here c) /\
    (forall c t n,
       terrain here c = Some t ->
       n ∈ levels -> footprint here (pascii w) n c = true ->
       exists e,
         es c = Some e /\ e <= t /\
         e <= inject_Z (elevation vRes endHeight n)).
Proof.
  intros H vRes endHeight levels.
  destruct (run_outputs here opts lines z w H)
    as (vLevels & es & df & _ & _ & _ & Hes & Hdf & Hesc & Hdfc).
  fold vRes endHeight levels in Hesc.
  exists es, df. split; [exact Hes |]. split; [exact Hdf |].
  split.
  { intros c Hc. rewrite Hdfc. unfold difference. rewrite Hc. reflexivity. }
  split.
  { intros c t e Hc Ht He. rewrite Hdfc. unfold difference.
    rewrite Hc, Ht, He. reflexivity. }
  split.
  - intros c Hout. rewrite Hesc.
    destruct (terrain here c) as [t |] eqn:Ht.
    + destruct (sweep_min here vRes endHeight (pascii w) levels c t Ht)
        as (e & -> & _ & _ & [-> | (n & Hn & Hcn & _)]); [reflexivity |].
      rewrite (Hout n Hn) in Hcn. discriminate.
    + rewrite sweep_null by exact Ht. unfold fill. exact Ht.
  - intros c t n Ht Hn Hcn. rewrite Hesc.
    destruct (sweep_min here vRes endHeight (pascii w) levels c t Ht)
      as (e & -> & Hle & Hcov & _).
    exists e. split; [reflexivity |]. split; [exact Hle |].
    apply Hcov; assumption.
Qed.

Lemma difference_under_mask_witness :
  exists w, run Transect.site_open Transect.wide Transect.three = (Ok 0%Z, w) /\
    exists es df,
      rast w Dtm = Some es /\
      rast w Diff = Some df /\
      df (0, 210)%Z = None /\
      exists e, es (0, 210)%Z = Some e /\ e <= 93 /\ e <= 91.
Proof.
  destruct (run Transect.site_open Transect.wide Transect.three)
    as [[z | e] w] eqn:E.
  - assert (Hz : z = 0%Z).
    { apply (f_equal fst) in E. vm_compute in E. congruence. }
    subst z. exists w. split; [reflexivity |].
    assert (Hl : applying (says (trace w)) = [1; 2; 3; 4]%Z).
    { apply (f_equal (fun r => applying (says (trace (snd r))))) in E.
      vm_compute in E. symmetry. exact E. }
    assert (Hf : footprint Transect.site_open (pascii w) 2 (0, 210)%Z = true).
    { apply (f_equal (fun r => footprint Transect.site_open (pascii (snd r))
                                 2 (0, 210)%Z)) in E.
      vm_compute in E. symmetry. exact E. }
    destruct (difference_under_mask Transect.site_open Transect.wide
                Transect.three 0%Z w E) as (es & df & H1 & H2 & H3 & _ & _ & H4).
    exists es, df. split; [exact H1 |]. split; [exact H2 |]. split.
    + apply H3. vm_compute. reflexivity.
    + apply (H4 (0, 210)%Z 93 2%Z); [reflexivity | | exact Hf].
      rewrite Hl. right. left.
  - apply (f_equal fst) in E. vm_compute in E. discriminate.
Defined.

(** C10 as stated fails.  With [maxWidth/2 = 250] and a rasteriser that
    writes its output whatever MASK is in force, the cell 210 units off the
    path, outside the 200 buffer, is dug from 93 down to 91 while the
    difference map is null there.  Where the rasteriser does leave the cells
    outside the MASK null, that cell keeps the terrain value 93, and the
    difference map is still null there, not 0. *)
Lemma excavation_beyond_buffer :
  (fst (run Transect.site_open Transect.wide Transect.three) = Ok 0%Z /\
   line_buffer Transect.site_open 200 (0, 210)%Z = false /\
   terrain Transect.site_open (0, 210)%Z = Some 93 /\
   cell_value (snd (run Transect.site_open Transect.wide Transect.three))
     Dtm (0, 210)%Z = Some 91 /\
   cell_value (snd (run Transect.site_open Transect.wide Transect.three))
     Diff (0, 210)%Z = None) /\
  (fst (run Transect.site93 Transect.usual Transect.three) = Ok 0%Z /\
   line_buffer Transect.site93 200 (0, 210)%Z = false /\
   cell_value (snd (run Transect.site93 Transect.usual Transect.three))
     Dtm (0, 210)%Z = Some 93 /\
   cell_value (snd (run Transect.site93 Transect.usual Transect.three))
     Diff (0, 210)%Z = None /\
   cell_value (snd (run Transect.site93 Transect.usual Transect.three))
     Diff (0, 10)%Z = Some 0).
Proof. vm_compute. repeat split; reflexivity. Qed.

(** ** The level cap *)

(** C6, as the code has it.  The levels a run processes are the ordinals
    below [limitrunlayers] that hold rows, so their number never exceeds the
    cap; nothing reports the levels left out: the messages of a run that
    completes are the seven progress lines, one [Applying] line per processed
    level, and the volume and report lines. *)
Theorem truncation_is_silent {Cell : Type} (here : site Cell)
    (opts : options) (lines : list sample) (z : Z) (w : world Cell) :
  run here opts lines = (Ok z, w) ->
  let limitRunLayers := ensureopt (limitrunlayers opts) 2000%Z in
  let levels := applying (says (trace w)) in
  (forall n, n ∈ levels <->
     (1 <= n < limitRunLayers)%Z /\ has_rows (pascii w) n = true) /\
  (Z.of_nat (List.length levels) <= Z.max 0 (limitRunLayers - 1))%Z /\
  map label (says (trace w))
  = ["Path length: "; "Profile: "; "Maximum height: "; "Number of levels: ";
     "Start height: "; "End height: ";
     "Slope ratio (in meters / meter): "]%string
    ++ map (fun _ => "Applying: "%string) levels
    ++ ["Calculating volume difference"; "Path: "; "M3: ";
        "Limestone tons: "; "Kt limestone: "; "Liebherr T 282B: ";
        "Visonta year "]%string.
Proof.
  intros H limitRunLayers levels.
  destruct (run_outputs here opts lines z w H)
    as (vLevels & es & df & Hkeys & Happ & Hlabels & _).
  fold limitRunLayers levels in Happ, Hlabels.
  split.
  { intros n. rewrite Happ, applied_elem. split.
    - intros [Hn Hrows]. split; [lia | exact Hrows].
    - intros [Hn Hrows]. split; [| exact Hrows].
      apply has_rows_is_Some, Hkeys in Hrows. lia. }
  split; [| exact Hlabels].
  rewrite Happ. unfold applied.
  pose proof (filter_length_le (has_rows (pascii w))
                (Py.range 1 (Z.min vLevels limitRunLayers))) as Hlen.
  unfold Py.range in Hlen at 2. rewrite length_seqZ in Hlen. lia.
Qed.

Lemma truncation_is_silent_witness :
  exists w,
    run Transect.site93 (Transect.command 92 90 7 10 50 1 3) Transect.three
    = (Ok 0%Z, w) /\
    (Z.of_nat (List.length (applying (says (trace w)))) <= Z.max 0 (3 - 1))%Z.
Proof.
  destruct (run Transect.site93 (Transect.command 92 90 7 10 50 1 3)
              Transect.three) as [[z | e] w] eqn:E.
  - assert (Hz : z = 0%Z).
    { apply (f_equal fst) in E. vm_compute in E. congruence. }
    subst z. exists w. split; [reflexivity |].
    destruct (truncation_is_silent Transect.site93
                (Transect.command 92 90 7 10 50 1 3) Transect.three 0%Z w E)
      as (_ & H2 & _).
    exact H2.
  - apply (f_equal fst) in E. vm_compute in E. discriminate.
Defined.

(** C6 as stated fails: with a cap of 3 and 6 levels reported (5 usable, all
    holding rows) the run applies levels 1 and 2 only, completes, and its
    messages are the usual ones; none reports the truncation. *)
Lemma truncation_without_warning :
  fst (run Transect.site93 (Transect.command 92 90 7 10 50 1 3)
         Transect.three) = Ok 0%Z /\
  says (trace (snd (run Transect.site93 (Transect.command 92 90 7 10 50 1 3)
                      Transect.three))) !! 3%nat
  = Some (NumberOfLevels 6) /\
  has_rows (pascii (snd (run Transect.site93
                           (Transect.command 92 90 7 10 50 1 3)
                           Transect.three))) 5 = true /\
  applying (says (trace (snd (run Transect.site93
                                (Transect.command 92 90 7 10 50 1 3)
                                Transect.three)))) = [1; 2]%Z /\
  map label (says (trace (snd (run Transect.site93
                                 (Transect.command 92 90 7 10 50 1 3)
                                 Transect.three))))
  = ["Path length: "; "Profile: "; "Maximum height: "; "Number of levels: ";
     "Start height: "; "End height: ";
     "Slope ratio (in meters / meter): "; "Applying: "; "Applying: ";
     "Calculating volume difference"; "Path: "; "M3: "; "Limestone tons: ";
     "Kt limestone: "; "Liebherr T 282B: "; "Visonta year "]%string.
Proof. vm_compute. repeat split; reflexivity. Qed.

(** ** Degenerate paths *)

(** C9, as the code has it.  Without stations a run does not complete: it
    stops when the path length is read from the last station (an
    [IndexError]; a [ZeroDivisionError] raised before any command when
    [depth] is 0), before any message is written and before any raster map
    is created or changed. *)
Theorem no_stations_fails {Cell : Type} (here : site Cell) (opts : options) :
  exists e w,
    run here opts [] = (Raise e, w) /\
    (e = IndexError \/ e = ZeroDivisionError) /\
    (~ ensureopt (depth opts) 5 == 0 -> e = IndexError) /\
    says (trace w) = [] /\
    mask w = None /\
    pascii w = ∅ /\
    forall r, rast w r = rast (world0 here) r.
Proof.
  unfold run, main. cbv zeta.
  destruct (Qeq_dec (ensureopt (depth opts) 5) 0) as [Hd | Hd].
  - exists ZeroDivisionError, (world0 here). split.
    { apply bind_raise. unfold lift. f_equal.
      unfold Py.div at 2. simpl Qeq_bool. cbn [mbind result_bind Py.rbind].
      apply div_zero. exact Hd. }
    split; [right; reflexivity |]. split; [contradiction |].
    repeat split.
  - eexists IndexError, _. split.
    { erewrite bind_run.
      2:{ unfold lift. f_equal. unfold Py.div at 2. simpl Qeq_bool.
          cbn [mbind result_bind Py.rbind]. apply div_nonzero. exact Hd. }
      do 5 (erewrite bind_run by reflexivity).
      apply bind_raise. reflexivity. }
    split; [left; reflexivity |]. split; [reflexivity |].
    repeat split.
Qed.

(** C9 as stated fails: the run on an empty station list raises
    [IndexError] after the five path commands and leaves no result map. *)
Lemma no_stations_no_surface :
  fst (run Transect.site93 Transect.usual []) = Raise IndexError /\
  trace (snd (run Transect.site93 Transect.usual []))
  = [Grass "g.region"; Grass "g.region"; Grass "g.region";
     Grass "v.to.points"; Grass "v.out.ascii"] /\
  cell_value (snd (run Transect.site93 Transect.usual [])) Dtm (0, 0)%Z
  = None.
Proof. vm_compute. repeat split; reflexivity. Qed.

(** C7, as the code has it.  When the last station lies at distance 0 (a path
    of length zero) the run never completes.  With otherwise usable answers
    ([depth] and [vRes] not 0, a DTM value in the corridor) it stops with the
    [ZeroDivisionError] of the slope computation, after the corridor map has
    been written by [r.mapcalc] and read by [r.univar], and before any level
    file, level map or result map exists. *)
Theorem zero_length_fails {Cell : Type} (here : site Cell) (opts : options)
    (lines : list sample) (last : sample) :
  Py.index lines (-1) = Ok last ->
  along last == 0 ->
  (forall z w, run here opts lines <> (Ok z, w)) /\
  (~ ensureopt (depth opts) 5 == 0 ->
   ~ ensureopt (vres opts) 1 == 0 ->
   forall maxH,
     maximum (omap (read (Some (line_buffer here
                                  (ensureopt (maxwidth opts) 300 / 2)))
                      (terrain here)) (region here)) = Ok maxH ->
     exists w,
       run here opts lines = (Raise ZeroDivisionError, w) /\
       Grass "r.mapcalc" ∈ trace w /\
       Grass "r.univar" ∈ trace w /\
       is_Some (rast w Maxbuf) /\
       pascii w = ∅ /\
       (forall n, rast w (BufDiss n) = None) /\
       rast w Dtm = None /\
       rast w Diff = None).
Proof.
  intros Hlast Hzero. split.
  { intros z w H.
    destruct (run_Ok here opts lines z w H)
      as (sideRatio & last' & peak & x & quo & db & _ & Hlast' & _ & _
          & Hquo & _).
    assert (last' = last) as -> by congruence.
    apply div_Ok in Hquo as [Hne _]. contradiction. }
  intros Hd Hv maxH Hmax.
  unfold run, main. cbv zeta.
  erewrite bind_run.
  2:{ unfold lift. f_equal. unfold Py.div at 2. simpl Qeq_bool.
      cbn [mbind result_bind Py.rbind]. apply div_nonzero. exact Hd. }
  rewrite Hlast.
  do 12 (erewrite bind_run by reflexivity).
  erewrite bind_run.
  2:{ unfold lift. f_equal. rewrite <- Hmax. f_equal.
      apply omap_pointwise. intros c. unfold read, cell_env. simpl.
      destruct (line_buffer here _ c); reflexivity. }
  do 2 (erewrite bind_run by reflexivity).
  erewrite bind_run.
  2:{ unfold lift. f_equal. apply div_nonzero. exact Hv. }
  erewrite bind_run by reflexivity.
  destruct (level_table _ _ _) as [hSeries db].
  eexists. split.
  { apply bind_raise. unfold lift. f_equal. apply div_zero. exact Hzero. }
  cbn [trace log set_mask set_rast].
  split; [rewrite !elem_of_app, !list_elem_of_singleton; tauto |].
  split; [rewrite !elem_of_app, !list_elem_of_singleton; tauto |].
  split; [simpl; eauto |].
  repeat split.
Qed.

Lemma zero_length_fails_witness :
  Py.index (Transect.stations [0]%Z) (-1)
  = Ok {| sx := 0; sy := 0; scat := 1; along := 0 |} /\
  (0 : Q) == 0 /\
  fst (run Transect.site93 Transect.usual (Transect.stations [0]%Z))
  <> Ok 0%Z.
Proof.
  split; [reflexivity |]. split; [reflexivity |].
  intros H.
  destruct (zero_length_fails Transect.site93 Transect.usual
              (Transect.stations [0]%Z)
              {| sx := 0; sy := 0; scat := 1; along := 0 |}
              eq_refl (Qeq_refl 0)) as [Hfail _].
  apply (Hfail 0%Z (snd (run Transect.site93 Transect.usual
                           (Transect.stations [0]%Z)))).
  rewrite <- H. apply surjective_pairing.
Defined.

(** C7 as stated fails: the run on a single station at distance 0 stops with
    [ZeroDivisionError] only after [r.mapcalc] has written the corridor map
    and [r.univar] has read it. *)
Lemma zero_length_fails_after_grid_work :
  fst (run Transect.site93 Transect.usual (Transect.stations [0]%Z))
  = Raise ZeroDivisionError /\
  trace (snd (run Transect.site93 Transect.usual (Transect.stations [0]%Z)))
  = [Grass "g.region"; Grass "g.region"; Grass "g.region";
     Grass "v.to.points"; Grass "v.out.ascii"; Say (PathLength 0);
     Say Profile; Grass "v.buffer"; Grass "r.mask"; Grass "r.mapcalc";
     Grass "r.univar"; Say (MaximumHeight 94); Grass "r.mask";
     Say (NumberOfLevels 6)] /\
  cell_value (snd (run Transect.site93 Transect.usual
                     (Transect.stations [0]%Z))) Maxbuf (0, 0)%Z
  = Some 93.
Proof. vm_compute. repeat split; reflexivity. Qed.


(** ** Every command of a run succeeds *)

Section TotalFacts.

Context {Cell : Type}.
Variable here : site Cell.

Lemma rasterize_runs (hSeries : list Z) (db : gmap Z (list entry)) (n : Z)
    (w : world Cell) :
  pascii w = db ->
  is_Some (db !! n) ->
  (has_rows db n = true -> exists level, Py.index hSeries (n - 1) = Ok level) ->
  exists w1, rasterize here hSeries db n w = (Ok tt, w1).
Proof.
  intros Hp [l Hl] Hidx. unfold rasterize.
  erewrite bind_run by (unfold lift, Py.getitem; rewrite Hl; reflexivity).
  rewrite (has_rows_length db n l Hl).
  destruct (has_rows db n) eqn:Eh; [| eexists; reflexivity].
  destruct (Hidx eq_refl) as [level Hlevel].
  erewrite bind_run by (unfold v_in_ascii; rewrite Hp, Hl; reflexivity).
  do 2 (erewrite bind_run by reflexivity).
  erewrite bind_run by (unfold lift; rewrite Hlevel; reflexivity).
  erewrite bind_run by reflexivity.
  eexists. reflexivity.
Qed.

Lemma for_rasterize_runs (hSeries : list Z) (db : gmap Z (list entry))
    (l : list Z) :
  forall w : world Cell,
    pascii w = db ->
    (forall n, n ∈ l ->
       is_Some (db !! n) /\
       (has_rows db n = true ->
        exists level, Py.index hSeries (n - 1) = Ok level)) ->
    exists w', for_ l (rasterize here hSeries db) w = (Ok tt, w').
Proof.
  induction l as [| k l IH]; intros w Hp Hl; simpl.
  - eexists. reflexivity.
  - destruct (Hl k) as [Hk1 Hk2]; [left |].
    destruct (rasterize_runs hSeries db k w Hp Hk1 Hk2) as [w1 H1].
    erewrite bind_run by exact H1.
    destruct (rasterize_step here _ _ _ _ _ Hp H1) as (_ & Hp1 & _).
    apply IH; [congruence |].
    intros n Hn. apply Hl. right. exact Hn.
Qed.

Lemma apply_runs (db : gmap Z (list entry)) (n : Z) (w : world Cell) :
  is_Some (rast w Source) ->
  is_Some (db !! n) ->
  (has_rows db n = true -> is_Some (rast w (BufDiss n))) ->
  exists w1,
    apply_level db n w = (Ok tt, w1) /\
    is_Some (rast w1 Source) /\
    (rast w Temp = None -> rast w1 Temp = None).
Proof.
  intros [g Hg] [l Hl] Hmap. unfold apply_level.
  erewrite bind_run by (unfold lift, Py.getitem; rewrite Hl; reflexivity).
  rewrite (has_rows_length db n l Hl).
  destruct (has_rows db n) eqn:Eh; [| eexists; split; [reflexivity | eauto]].
  destruct (Hmap eq_refl) as [f Hf].
  erewrite bind_run by reflexivity.
  erewrite bind_run.
  2:{ unfold r_mapcalc. simpl maps. unfold forallb, exists_map.
      rewrite !rast_log, Hf, Hg. reflexivity. }
  eexists. split.
  { unfold g_rename. rewrite rast_set_rast, decide_True by reflexivity.
    reflexivity. }
  split.
  - rewrite rast_set_rast, decide_True by reflexivity. eauto.
  - intros _. rewrite rast_set_rast, decide_False by discriminate.
    rewrite rast_set_rast, decide_True by reflexivity. reflexivity.
Qed.

Lemma for_apply_runs (db : gmap Z (list entry)) (l : list Z) :
  forall w : world Cell,
    mask w = None ->
    is_Some (rast w Source) ->
    rast w Temp = None ->
    (forall n, n ∈ l ->
       is_Some (db !! n) /\
       (has_rows db n = true -> is_Some (rast w (BufDiss n)))) ->
    exists w',
      for_ l (apply_level db) w = (Ok tt, w') /\
      is_Some (rast w' Source) /\
      rast w' Temp = None.
Proof.
  induction l as [| k l IH]; intros w Hmask Hsrc Htemp Hl; simpl.
  - eexists. split; [reflexivity | auto].
  - destruct (Hl k) as [Hk1 Hk2]; [left |].
    destruct (apply_runs db k w Hsrc Hk1 Hk2) as (w1 & H1 & Hsrc1 & Htemp1).
    erewrite bind_run by exact H1.
    destruct (apply_step _ _ _ _ Hmask H1) as (Hm1 & _ & Hf1 & _).
    apply IH; [exact Hm1 | exact Hsrc1 | auto |].
    intros n Hn. destruct (Hl n) as [Hn1 Hn2]; [right; exact Hn |].
    split; [exact Hn1 |]. intros Hrows.
    rewrite Hf1 by discriminate. auto.
Qed.

Lemma r_mapcalc_runs (out : rname) (e : mexpr) (w : world Cell) :
  forallb (exists_map w) (maps e) = true ->
  r_mapcalc out e w
  = (Ok tt, set_rast out (Some (fun c => eval (cell_env w c) e))
              (log (Grass "r.mapcalc") w)).
Proof. intros H. unfold r_mapcalc. rewrite H. reflexivity. Qed.

Lemma maximum_Raise (vs : list Q) (e : exn) :
  maximum vs = Raise e -> e = ValueError.
Proof. destruct vs; simpl; intros H; [congruence | discriminate]. Qed.

Lemma run_total (opts : options) (lines : list sample) :
  exists w,
    run here opts lines = (outcome here opts lines, w) /\
    rast w Basedtm = Some (terrain here) /\
    match outcome here opts lines with
    | Ok _ =>
        mask w = None /\ rast w Maxbuf = None /\
        (forall n, rast w (BufDiss n) = None) /\
        rast w Temp = None /\ is_Some (rast w Source)
    | Raise e =>
        rast w Dtm = None /\ rast w Diff = None /\ rast w Source = None /\
        pascii w = ∅ /\ (forall n, rast w (BufDiss n) = None) /\
        (e <> ValueError -> mask w = None)
    end.
Proof.
  destruct (run here opts lines) as [r w] eqn:E. exists w.
  unfold run, main in E. unfold outcome. cbv zeta in E |- *.
  match type of E with
  | (lift ?m ≫= _) _ = _ => destruct m as [sideRatio | e] eqn:Hs
  end.
  2:{ erewrite bind_raise in E by reflexivity. injection E as <- <-.
      cbn [mbind result_bind Py.rbind].
      split; [reflexivity |]. split; [reflexivity |]. repeat split. }
  erewrite bind_run in E by reflexivity.
  cbn [mbind result_bind Py.rbind].
  do 5 (erewrite bind_run in E by reflexivity).
  destruct (Py.index lines (-1)) as [last | e] eqn:Hlast.
  2:{ erewrite bind_raise in E by reflexivity. injection E as <- <-.
      split; [reflexivity |]. split; [reflexivity |]. repeat split. }
  do 7 (erewrite bind_run in E by reflexivity).
  match type of E with
  | context [maximum (omap ?f (region here))] =>
      rewrite (omap_pointwise f
                 (read (Some (line_buffer here
                                (ensureopt (maxwidth opts) 300 / 2)))
                       (terrain here))) in E
        by (intros c; unfold read, cell_env; simpl;
            destruct (line_buffer here _ c); reflexivity)
  end.
  destruct (maximum _) as [maxH | e] eqn:Hmax.
  2:{ erewrite bind_raise in E by reflexivity. injection E as <- <-.
      apply maximum_Raise in Hmax. subst e.
      split; [reflexivity |]. split; [reflexivity |].
      repeat split. intros Hne. contradiction. }
  do 3 (erewrite bind_run in E by reflexivity).
  cbn [mbind result_bind Py.rbind].
  destruct (Py.div _ (ensureopt (vres opts) 1)) as [x | e] eqn:Hx.
  2:{ erewrite bind_raise in E by reflexivity. injection E as <- <-.
      split; [reflexivity |]. split; [reflexivity |]. repeat split. }
  do 2 (erewrite bind_run in E by reflexivity).
  cbn [mbind result_bind Py.rbind].
  destruct (level_table _ _ _) as [hSeries db0] eqn:Etab.
  cbn [fst snd].
  destruct (Py.div _ (along last)) as [quo | e] eqn:Hquo.
  2:{ erewrite bind_raise in E by reflexivity. injection E as <- <-.
      split; [reflexivity |]. split; [reflexivity |]. repeat split. }
  do 4 (erewrite bind_run in E by reflexivity).
  cbn [mbind result_bind Py.rbind].
  destruct (rfold _ db0 lines) as [db | e] eqn:Hdb.
  2:{ erewrite bind_raise in E by reflexivity. injection E as <- <-.
      split; [reflexivity |]. split; [reflexivity |]. repeat split. }
  do 6 (erewrite bind_run in E by reflexivity).
  cbn [mbind result_bind Py.rbind mret result_ret].
  assert (Htab : hSeries = fst (level_table (ensureopt (vres opts) 1)
                                  (ensureopt (endheight opts) 100)
                                  (Py.round x + 2))
                 /\ db0 = snd (level_table (ensureopt (vres opts) 1)
                                 (ensureopt (endheight opts) 100)
                                 (Py.round x + 2))).
  { rewrite Etab. split; reflexivity. }
  destruct Htab as [-> ->]. clear Etab.
  destruct (assign_Ok _ _ _ _ _ _ _ _ _ _ _ _ Hdb) as [Hlook _].
  assert (Hkeys : forall n,
            n ∈ Py.range 1 (Z.min (Py.round x + 2)
                              (ensureopt (limitrunlayers opts) 2000%Z)) ->
            is_Some (db !! n) /\
            exists level,
              Py.index (fst (level_table (ensureopt (vres opts) 1)
                               (ensureopt (endheight opts) 100)
                               (Py.round x + 2))) (n - 1) = Ok level).
  { intros n Hn. apply elem_of_range in Hn. split.
    - rewrite Hlook, fmap_is_Some, level_table_db, decide_True by lia. eauto.
    - eexists. apply hSeries_index. lia. }
  match type of E with
  | (for_ _ _ ≫= _) ?w0 = _ => set (wa := w0) in *
  end.
  assert (Hpascii_a : pascii wa = db) by reflexivity.
  assert (Hdtm_a : rast wa Basedtm = Some (terrain here)) by reflexivity.
  assert (Htemp_a : rast wa Temp = None) by reflexivity.
  clearbody wa.
  match type of E with
  | (for_ ?l (rasterize here ?h db) ≫= _) _ = _ =>
      destruct (for_rasterize_runs h db l wa Hpascii_a) as [wb Hb]
  end.
  { intros n Hn. destruct (Hkeys n Hn) as [H1 H2]. split; [exact H1 | auto]. }
  erewrite bind_run in E by exact Hb.
  destruct (for_rasterize here _ _ _ _ _ Hpascii_a Hb)
    as (Hmask_b & Hpascii_b & _ & Hframe_b & Hmaps_b).
  do 3 (erewrite bind_run in E by reflexivity).
  erewrite bind_run in E.
  2:{ apply r_mapcalc_runs. simpl maps. unfold forallb, exists_map.
      rewrite !rast_log, rast_set_mask, rast_log, Hframe_b, Hdtm_a;
        [reflexivity |].
      intros n Hn. discriminate. }
  match type of E with
  | (for_ _ _ ≫= _) ?w0 = _ => set (wc := w0) in *
  end.
  assert (Hmask_c : mask wc = None) by reflexivity.
  assert (Hframe_c : forall r', r' <> Source -> rast wc r' = rast wb r').
  { intros r' Hr. subst wc. rewrite rast_set_rast, decide_False by exact Hr.
    reflexivity. }
  assert (Hsrc_c : is_Some (rast wc Source)).
  { subst wc. rewrite rast_set_rast, decide_True by reflexivity. eauto. }
  assert (Hpascii_c : pascii wc = pascii wb) by reflexivity.
  clearbody wc.
  match type of E with
  | (for_ ?l (apply_level db) ≫= _) _ = _ =>
      destruct (for_apply_runs db l wc Hmask_c Hsrc_c)
        as (wd & Hd & Hsrc_d & Htemp_d)
  end.
  { rewrite Hframe_c by discriminate. rewrite Hframe_b; [exact Htemp_a |].
    intros n Hn. discriminate. }
  { intros n Hn. destruct (Hkeys n Hn) as [H1 _]. split; [exact H1 |].
    intros Hrows. rewrite Hframe_c by discriminate.
    destruct (Hmaps_b n Hn Hrows) as (level & _ & Hr). rewrite Hr. eauto. }
  erewrite bind_run in E by exact Hd.
  destruct Hsrc_c as [g Hsrc_c].
  destruct (for_apply _ _ _ _ _ Hmask_c Hsrc_c Hd)
    as (Hmask_d & Hpascii_d & Hframe_d & _).
  assert (Hdtm_d : rast wd Basedtm = Some (terrain here)).
  { rewrite Hframe_d by discriminate. rewrite Hframe_c by discriminate.
    rewrite Hframe_b; [exact Hdtm_a |]. intros n Hn. discriminate. }
  destruct Hsrc_d as [g' Hsrc_d].
  erewrite bind_run in E.
  2:{ apply r_mapcalc_runs. simpl maps. unfold forallb, exists_map.
      rewrite Hsrc_d, Hdtm_d. reflexivity. }
  do 7 (erewrite bind_run in E by reflexivity).
  erewrite bind_run in E.
  2:{ apply r_mapcalc_runs. simpl maps. unfold forallb, exists_map.
      cbn [rast set_mask log set_rast].
      rewrite (decide_False (P := Basedtm = Dtm)) by discriminate.
      rewrite (decide_True (P := Dtm = Dtm)) by reflexivity.
      rewrite Hdtm_d. reflexivity. }
  erewrite bind_run in E.
  2:{ unfold r_univar. rewrite rast_set_rast, decide_True by reflexivity.
      reflexivity. }
  do 9 (erewrite bind_run in E by reflexivity).
  injection E as <- <-.
  split; [reflexivity |]. split.
  { cbn [rast set_mask log set_rast]. exact Hdtm_d. }
  split; [reflexivity |]. split; [reflexivity |].
  split; [intros n; reflexivity |].
  split.
  - cbn [rast set_mask log set_rast is_scratch].
    exact Htemp_d.
  - cbn [rast set_mask log set_rast is_scratch].
    rewrite Hsrc_d. eauto.
Qed.

End TotalFacts.

(** ** The elevation a level carries *)

(** C8, as the code has it.  For every level ordinal [n] in [1 .. vLevels-1]
    the elevation attached to the level, [hSeries[n-1]], is the integer
    [round((n-1)*vRes + endHeight)], which equals [endHeight + (n-1)*vRes]
    whenever that number is an integer; rasterising a level that holds rows
    (lines 340-346, with the table of lines 294-303) succeeds and writes a
    level map that carries exactly this integer on the cells the buffered
    rows cover and is null elsewhere; the elevations are non-decreasing in
    [n] when [vRes >= 0]. *)
Theorem level_elevation_rounded {Cell : Type} (here : site Cell)
    (vRes endHeight : Q) (vLevels n : Z) (w : world Cell) :
  (1 <= n < vLevels)%Z ->
  let hSeries := fst (level_table vRes endHeight vLevels) in
  let e := Py.round (inject_Z (n - 1) * vRes + endHeight) in
  Py.index hSeries (n - 1) = Ok e /\
  (forall z : Z, endHeight + inject_Z (n - 1) * vRes == inject_Z z -> e = z) /\
  (has_rows (pascii w) n = true ->
   exists w',
     rasterize here hSeries (pascii w) n w = (Ok tt, w') /\
     rast w' (BufDiss n)
     = Some (fun c =>
               if points_buffer here (mask w) (rows (pascii w) n) c
               then Some (inject_Z e) else None)) /\
  (0 <= vRes ->
   forall k e', (n <= k < vLevels)%Z ->
     Py.index hSeries (k - 1) = Ok e' -> (e <= e')%Z).
Proof.
  intros Hn hSeries e.
  assert (Hidx : Py.index hSeries (n - 1) = Ok e)
    by apply (hSeries_index vRes endHeight vLevels n Hn).
  split; [exact Hidx |].
  split.
  { intros z Hz. subst e.
    rewrite (round_comp _ (inject_Z z)) by lra.
    apply round_inject_Z. }
  split.
  - intros Hrows.
    destruct (rasterize_runs here hSeries (pascii w) n w eq_refl
                (has_rows_is_Some _ _ Hrows)) as [w' Hw']; [eauto |].
    exists w'. split; [exact Hw' |].
    destruct (rasterize_step here hSeries (pascii w) n w w' eq_refl Hw')
      as (_ & _ & _ & _ & Hmap).
    destruct (Hmap Hrows) as (level & Hlevel & ->).
    rewrite Hidx in Hlevel. injection Hlevel as <-. reflexivity.
  - intros Hv k e' Hk He'. subst hSeries.
    rewrite hSeries_index in He' by lia. injection He' as <-.
    apply elevation_mono; [exact Hv | lia].
Qed.

Lemma level_elevation_rounded_witness :
  (1 <= 3 < 33)%Z /\
  Py.index (fst (level_table 1 90 33)) (3 - 1) = Ok 92%Z /\
  exists w',
    rasterize Transect.site93 (fst (level_table 1 90 33))
      (<[3%Z := [row {| sx := 0; sy := 0; scat := 1; along := 0 |} 5]]> ∅) 3
      (set_mask (Some (line_buffer Transect.site93 200))
         (set_pascii
            (<[3%Z := [row {| sx := 0; sy := 0; scat := 1; along := 0 |} 5]]>
               ∅)
            (world0 Transect.site93)))
    = (Ok tt, w') /\
    cell_value w' (BufDiss 3) (0, 0)%Z = Some 92.
Proof.
  split; [lia |].
  destruct (level_elevation_rounded Transect.site93 1 90 33 3
              (set_mask (Some (line_buffer Transect.site93 200))
                 (set_pascii
                    (<[3%Z := [row {| sx := 0; sy := 0; scat := 1;
                                      along := 0 |} 5]]> ∅)
                    (world0 Transect.site93))))
    as (H1 & _ & H2 & _); [lia |].
  split; [exact H1 |].
  destruct H2 as (w' & Hw' & Hmap); [reflexivity |].
  exists w'. split; [exact Hw' |].
  unfold cell_value. rewrite Hmap. reflexivity.
Defined.

(** C8 as stated fails: with [endHeight = 90.4] and [vRes = 1] level 1 carries
    [90], not [90.4]; with [endHeight = 90] and [vRes = 0.2] levels 1 and 2
    both carry [90]. *)
Lemma level_elevation_not_exact :
  (Py.index (fst (level_table 1 (904 # 10) 3)) (1 - 1) = Ok 90%Z /\
   ~ inject_Z 90 == (904 # 10) + inject_Z (1 - 1) * 1) /\
  (Py.index (fst (level_table (2 # 10) 90 4)) (1 - 1) = Ok 90%Z /\
   Py.index (fst (level_table (2 # 10) 90 4)) (2 - 1) = Ok 90%Z).
Proof.
  split; split; try reflexivity.
  intros H. vm_compute in H. discriminate.
Qed.

(** ** The result of a run *)

(** X1.  The result of a run is the result of the computations of [main]
    that can raise, taken in order: the side ratio, the last station, the
    corridor maximum ([maximum]: no value without a valid cell), the number
    of levels, the slope and the loop over the stations.  Rasterising the
    levels, the sweep and the volume ([total]: sum 0 without a valid cell)
    never fail, because every level file and raster map the script reads is
    one it has written before (level [n] is merged exactly when it was
    rasterised). *)
Theorem run_result {Cell : Type} (here : site Cell) (opts : options)
    (lines : list sample) :
  fst (run here opts lines) = outcome here opts lines.
Proof.
  destruct (run_total here opts lines) as (w & H & _).
  rewrite H. reflexivity.
Qed.

(** ** The session a run leaves *)

(** X4.  When [main] returns, in a session that held none of the script's
    map names before, the MASK is removed, the corridor map, the level maps
    and [temp] are gone, the result and difference maps exist, and the
    working map [source] is left behind in the mapset. *)
Theorem session_after_run {Cell : Type} (here : site Cell) (opts : options)
    (lines : list sample) (z : Z) (w : world Cell) :
  run here opts lines = (Ok z, w) ->
  mask w = None /\
  rast w Maxbuf = None /\
  (forall n, rast w (BufDiss n) = None) /\
  rast w Temp = None /\
  is_Some (rast w Source) /\
  is_Some (rast w Dtm) /\
  is_Some (rast w Diff).
Proof.
  intros H.
  destruct (run_total here opts lines) as (w' & H' & Hdtm & Hrest).
  rewrite H in H'. injection H' as Ho <-. rewrite <- Ho in Hrest.
  destruct Hrest as (Hmask & Hmaxbuf & Hdiss & Htemp & Hsrc).
  destruct (run_outputs here opts lines z w H)
    as (_ & es & df & _ & _ & _ & Hes & Hdf & _).
  rewrite Hes, Hdf. repeat split; eauto.
Qed.

Lemma session_after_run_witness :
  exists w,
    run Transect.site93 Transect.usual Transect.three = (Ok 0%Z, w) /\
    mask w = None /\ rast w Temp = None /\ is_Some (rast w Source).
Proof.
  destruct (run Transect.site93 Transect.usual Transect.three)
    as [[z | e] w] eqn:E.
  - assert (Hz : z = 0%Z).
    { apply (f_equal fst) in E. vm_compute in E. congruence. }
    subst z. exists w. split; [reflexivity |].
    destruct (session_after_run Transect.site93 Transect.usual Transect.three
                0%Z w E) as (H1 & _ & _ & H2 & H3 & _).
    auto.
  - apply (f_equal fst) in E. vm_compute in E. discriminate.
Defined.

(** ** Bounds on the result *)

Section BoundFacts.

Context {Cell : Type}.
Variable here : site Cell.

(** The sweep never raises a cell above the terrain, and never takes it below
    a value that lies under every merged level. *)
Lemma foldl_lower_bounds (cov : Z -> bool) (elev : Z -> Q) (levels : list Z) :
  forall t,
    exists e,
      foldl (fun s n => lower (if cov n then Some (elev n) else None) s)
            (Some t) levels = Some e /\
      e <= t /\
      forall b, (forall n, n ∈ levels -> b <= elev n) -> Qmin t b <= e.
Proof.
  induction levels as [| k l IH]; intros t; simpl.
  - exists t. split; [reflexivity |]. split; [lra |].
    intros b _. apply Q.le_min_l.
  - assert (Hstep : exists t1,
              lower (if cov k then Some (elev k) else None) (Some t) = Some t1
              /\ t1 <= t
              /\ forall b, b <= elev k -> Qmin t b <= t1).
    { destruct (cov k); simpl.
      - destruct (Qle_bool t (elev k)) eqn:E.
        + exists t. split; [reflexivity |]. split; [lra |].
          intros b _. apply Q.le_min_l.
        + assert (Hlt : elev k < t).
          { apply Qnot_le_lt. intros Hle. apply Qle_bool_iff in Hle.
            congruence. }
          exists (elev k). split; [reflexivity |]. split; [lra |].
          intros b Hb. pose proof (Q.le_min_r t b). lra.
      - exists t. split; [reflexivity |]. split; [lra |].
        intros b _. apply Q.le_min_l. }
    destruct Hstep as (t1 & -> & Ht1 & Hb1).
    destruct (IH t1) as (e & He & Hle & Hlow).
    exists e. split; [exact He |]. split; [lra |].
    intros b Hb.
    assert (H1 : Qmin t b <= t1) by (apply Hb1, Hb; left).
    assert (H2 : Qmin t1 b <= e).
    { apply Hlow. intros n Hn. apply Hb. right. exact Hn. }
    pose proof (Q.le_min_r t b) as H3.
    destruct (Q.min_spec t1 b) as [[_ Hm] | [_ Hm]]; rewrite Hm in H2; lra.
Qed.

Lemma sweep_bounds (vRes endHeight : Q) (db : gmap Z (list entry))
    (levels : list Z) (c : Cell) (t : Q) :
  terrain here c = Some t ->
  exists e,
    sweep here vRes endHeight db levels c = Some e /\
    e <= t /\
    forall b,
      (forall n, n ∈ levels -> b <= inject_Z (elevation vRes endHeight n)) ->
      Qmin t b <= e.
Proof.
  intros Ht. unfold sweep. rewrite Ht.
  apply (foldl_lower_bounds (fun n => footprint here db n c)
           (fun n => inject_Z (elevation vRes endHeight n))).
Qed.


End BoundFacts.



(** X7.  For [vRes >= 0], a run that returns never digs below the end
    elevation: in every cell with terrain value [T] the result lies between
    [min(T, round(endHeight))] and [T]. *)
Theorem trench_floor {Cell : Type} (here : site Cell) (opts : options)
    (lines : list sample) (z : Z) (w : world Cell) :
  run here opts lines = (Ok z, w) ->
  0 <= ensureopt (vres opts) 1 ->
  let endHeight := ensureopt (endheight opts) 100 in
  exists es,
    rast w Dtm = Some es /\
    forall c t,
      terrain here c = Some t ->
      exists e,
        es c = Some e /\ e <= t /\
        Qmin t (inject_Z (Py.round endHeight)) <= e.
Proof.
  intros H Hv endHeight.
  destruct (run_outputs here opts lines z w H)
    as (vLevels & es & df & _ & Happ & _ & Hes & _ & Hesc & _).
  fold endHeight in Hesc.
  exists es. split; [exact Hes |].
  intros c t Ht. rewrite Hesc.
  destruct (sweep_bounds here (ensureopt (vres opts) 1) endHeight (pascii w)
              (applying (says (trace w))) c t Ht) as (e & He & Hle & Hlow).
  exists e. rewrite He. split; [reflexivity |]. split; [exact Hle |].
  apply Hlow. intros n Hn. rewrite Happ in Hn.
  apply applied_elem in Hn as [Hn _].
  rewrite <- Zle_Qle.
  replace (Py.round endHeight)
    with (elevation (ensureopt (vres opts) 1) endHeight 1).
  - apply elevation_mono; [exact Hv | lia].
  - unfold elevation. apply round_comp.
    change (inject_Z (1 - 1)) with 0. lra.
Qed.

Lemma trench_floor_witness :
  exists w,
    run Transect.site_pit Transect.usual Transect.three = (Ok 0%Z, w) /\
    0 <= 1 /\
    exists es,
      rast w Dtm = Some es /\
      exists e,
        es (0, 10)%Z = Some e /\ e <= 93 /\
        Qmin 93 (inject_Z (Py.round 90)) <= e.
Proof.
  destruct (run Transect.site_pit Transect.usual Transect.three)
    as [[z | e] w] eqn:E.
  - assert (Hz : z = 0%Z).
    { apply (f_equal fst) in E. vm_compute in E. congruence. }
    subst z. exists w. split; [reflexivity |]. split; [discriminate |].
    assert (Hv : 0 <= ensureopt (vres Transect.usual) 1) by discriminate.
    destruct (trench_floor Transect.site_pit Transect.usual Transect.three
                0%Z w E Hv) as (es & H1 & H2).
    exists es. split; [exact H1 |].
    apply (H2 (0, 10)%Z 93). reflexivity.
  - apply (f_equal fst) in E. vm_compute in E. discriminate.
Defined.

(** ** The level files and the messages of a run *)

Section FileFacts.

Variables vRes endHeight startHeight chWidth chMaxWidth sideRatio : Q.
Variable vLevels : Z.

(** A station gives a level at most one row. *)
Lemma station_rows_cases (quo : Q) (s : sample) (n : Z) :
  station_rows vRes endHeight startHeight chWidth chMaxWidth sideRatio vLevels
    quo s n = [] \/
  exists wd,
    station_rows vRes endHeight startHeight chWidth chMaxWidth sideRatio
      vLevels quo s n = [row s wd].
Proof.
  unfold station_rows.
  destruct (own_level _ _ _ _ _) as [level |]; [| left; reflexivity].
  unfold rows_at. destruct (decide (n = level)); [right; eauto |].
  destruct (_ && _); [right; eauto | left; reflexivity].
Qed.

Lemma station_rows_sublist (quo : Q) (n : Z) (lines : list sample) :
  sublist
    (map (fun e => (ex e, ey e, ecat e))
       (flat_map
          (fun s => station_rows vRes endHeight startHeight chWidth chMaxWidth
                      sideRatio vLevels quo s n) lines))
    (map (fun s => (sx s, sy s, scat s)) lines).
Proof.
  induction lines as [| s l IH]; simpl; [constructor |].
  destruct (station_rows_cases quo s n) as [-> | [wd ->]]; simpl.
  - apply sublist_cons, IH.
  - apply sublist_skip, IH.
Qed.

End FileFacts.

(** X8.  In a run that returns, every level file lists stations of the
    sampled path in path order, each at most once, with the coordinates and
    the category of the station: its rows, without their widths, are a
    subsequence of the samples. *)
Theorem level_file_rows {Cell : Type} (here : site Cell) (opts : options)
    (lines : list sample) (z : Z) (w : world Cell) :
  run here opts lines = (Ok z, w) ->
  forall n,
    sublist (map (fun e => (ex e, ey e, ecat e)) (rows (pascii w) n))
            (map (fun s => (sx s, sy s, scat s)) lines) /\
    (length (rows (pascii w) n) <= length lines)%nat.
Proof.
  intros H n.
  destruct (run_level_files here opts lines z w H)
    as (last & maxH & _ & _ & Hfiles).
  assert (Hsub : sublist (map (fun e => (ex e, ey e, ecat e))
                            (rows (pascii w) n))
                         (map (fun s => (sx s, sy s, scat s)) lines)).
  { unfold rows. rewrite (Hfiles n).
    destruct (decide _); simpl.
    - apply station_rows_sublist.
    - apply sublist_nil_l. }
  split; [exact Hsub |].
  apply sublist_length in Hsub. rewrite !length_map in Hsub. exact Hsub.
Qed.

Lemma level_file_rows_witness :
  exists w,
    run Transect.site93 Transect.usual Transect.three = (Ok 0%Z, w) /\
    (length (rows (pascii w) 3) <= 3)%nat.
Proof.
  destruct (run Transect.site93 Transect.usual Transect.three)
    as [[z | e] w] eqn:E.
  - assert (Hz : z = 0%Z).
    { apply (f_equal fst) in E. vm_compute in E. congruence. }
    subst z. exists w. split; [reflexivity |].
    apply (level_file_rows Transect.site93 Transect.usual Transect.three
             0%Z w E 3%Z).
  - apply (f_equal fst) in E. vm_compute in E. discriminate.
Defined.

(** X9.  The table of lines 294-303 holds one elevation and one empty row
    list per level [1 .. vLevels-1] and nothing else (nothing at all when
    [vLevels <= 1]); for [vRes >= 0] the elevations do not decrease with the
    level. *)
Theorem level_table_sorted (vRes endHeight : Q) (vLevels : Z) :
  length (fst (level_table vRes endHeight vLevels))
  = Z.to_nat (vLevels - 1) /\
  (forall n,
     snd (level_table vRes endHeight vLevels) !! n
     = if decide (1 <= n < vLevels)%Z then Some [] else None) /\
  (0 <= vRes ->
   StronglySorted Z.le (fst (level_table vRes endHeight vLevels))).
Proof.
  split; [| split].
  - rewrite level_table_hSeries, length_map. unfold Py.range.
    apply length_seqZ.
  - apply level_table_db.
  - intros Hv. rewrite level_table_hSeries.
    pose proof (StronglySorted_range 1 vLevels) as Hs.
    induction Hs as [| n l _ IH Hall]; simpl; constructor.
    + exact IH.
    + rewrite Forall_forall in *. intros y Hy.
      apply list_elem_of_fmap in Hy as (m & -> & Hm).
      apply elevation_mono; [exact Hv |].
      specialize (Hall m Hm). lia.
Qed.

Lemma level_table_sorted_witness :
  0 <= 2 # 10 /\
  fst (level_table (2 # 10) 90 4) = [90; 90; 90]%Z /\
  StronglySorted Z.le (fst (level_table (2 # 10) 90 4)).
Proof.
  split; [discriminate |]. split; [reflexivity |].
  apply (level_table_sorted (2 # 10) 90 4). discriminate.
Defined.

(** X10.  A run that returns opens its messages with the distance of the last
    station as the path length, the corridor maximum raised by one [vRes] as
    the maximum height, the number of levels computed from that raised
    maximum, the start and end heights of the options, and the slope
    [(endHeight - startHeight) / length]. *)
Theorem reported_figures {Cell : Type} (here : site Cell) (opts : options)
    (lines : list sample) (z : Z) (w : world Cell) :
  run here opts lines = (Ok z, w) ->
  let vRes := ensureopt (vres opts) 1 in
  let endHeight := ensureopt (endheight opts) 100 in
  let startHeight := ensureopt (startheight opts) 1000 in
  let chMaxWidth := ensureopt (maxwidth opts) 300 in
  exists last maxH rest,
    Py.index lines (-1) = Ok last /\
    maximum (omap (read (Some (line_buffer here (chMaxWidth / 2)))
                     (terrain here)) (region here)) = Ok maxH /\
    says (trace w)
    = [PathLength (along last); Profile; MaximumHeight (maxH + vRes);
       NumberOfLevels (Py.round ((maxH + vRes - endHeight) / vRes) + 2);
       StartHeight startHeight; EndHeight endHeight;
       SlopeRatio ((endHeight - startHeight) / along last)] ++ rest.
Proof.
  intros H vRes endHeight startHeight chMaxWidth.
  destruct (run_Ok here opts lines z w H)
    as (sideRatio & last & peak & x & quo & db & _ & Hlast & Hpeak & Hx
        & Hquo & _ & _ & _ & es & df & _ & _ & _ & _ & Hsays).
  apply div_Ok in Hx as [_ ->]. apply div_Ok in Hquo as [_ ->].
  exists last, peak. eexists. split; [exact Hlast |]. split; [exact Hpeak |].
  exact Hsays.
Qed.

Lemma reported_figures_witness :
  exists w,
    run Transect.site93 Transect.usual Transect.three = (Ok 0%Z, w) /\
    exists rest,
      says (trace w)
      = [PathLength 100; Profile; MaximumHeight (93 + 1);
         NumberOfLevels (Py.round ((93 + 1 - 90) / 1) + 2);
         StartHeight 92; EndHeight 90; SlopeRatio ((90 - 92) / 100)] ++ rest.
Proof.
  destruct (run Transect.site93 Transect.usual Transect.three)
    as [[z | e] w] eqn:E.
  - assert (Hz : z = 0%Z).
    { apply (f_equal fst) in E. vm_compute in E. congruence. }
    subst z. exists w. split; [reflexivity |].
    destruct (reported_figures Transect.site93 Transect.usual Transect.three
                0%Z w E) as (last & maxH & rest & Hl & Hm & Hs).
    exists rest.
    vm_compute in Hl. injection Hl as <-.
    vm_compute in Hm. injection Hm as <-.
    exact Hs.
  - apply (f_equal fst) in E. vm_compute in E. discriminate.
Defined.
